(** * redoubt: the server lifecycle of [src/index.ts]

    A shallow embedding of the [Server] class: option defaulting,
    construction, [listen]/[startListening], [close], the connection
    registry installed by [enableDestroy] and the redirecting fallback
    application.

    The program is asynchronous JavaScript.  Its promises are modelled by
    their final settlement (fulfilled or rejected at some tick of the event
    loop, or pending for ever), the runtime's answers (does a bind succeed,
    when does a peer hang up) are explicit arguments, and everything the
    program does to the outside (console, events, binds, closes, socket
    destruction, [process.env]) is recorded in a [World]. *)

From Stdlib Require Import ZArith Lia Ascii.
From stdpp Require Import gmap strings list fin_maps pretty.

(** ** Values *)

(** Error values: [new Error(message)], which is what the program throws
    and what callbacks receive as [err], and the built-in
    [AggregateError], which collects several errors in one. *)
#[warnings="-register-all"] Inductive JsError :=
| Error (message : string)
| AggregateError (errors : list JsError).

(** [{ key, cert, allowUnsigned }], the manual variant of [IOptions.ssl]. *)
Record ManualSsl := {
  key : string;
  cert : string;
  allowUnsigned : bool
}.

(** ["none" | "letsEncrypt" | { key, cert, allowUnsigned }]. *)
Inductive SslOption :=
| SslNone
| SslLetsEncrypt
| SslManual (m : ManualSsl).

Record StaticFiles := {
  from : string;
  serve : string
}.

(** A debug sink is a JavaScript function.  [defaultDebug] is the one the
    module defines; any other is a caller's function, known by an identity
    and observed through the calls made to it. *)
Inductive DebugFn :=
| defaultDebug
| customDebug (id : nat).

(** [interface IOptions]; [None] in [staticFiles] and [debug] is [null]. *)
Record IOptions := {
  name : string;
  domains : list string;
  cookieSecret : string;
  webmasterMail : string;
  isDevelopment : bool;
  ssl : SslOption;
  letsEncryptCertDirectory : string;
  agreeGreenlockTos : bool;
  staticFiles : option StaticFiles;
  maxPayloadSize : Z;
  debug : option DebugFn
}.

(** [Partial<IOptions>]: every field may be [undefined] ([None]).  For the
    two nullable fields [Some None] is an explicit [null]. *)
Module Partial.
Record IOptions := {
  name : option string;
  domains : option (list string);
  cookieSecret : option string;
  webmasterMail : option string;
  isDevelopment : option bool;
  ssl : option SslOption;
  letsEncryptCertDirectory : option string;
  agreeGreenlockTos : option bool;
  staticFiles : option (option StaticFiles);
  maxPayloadSize : option Z;
  debug : option (option DebugFn)
}.
End Partial.

(** [x === undefined ? d : x] *)
Definition orDefault {A} (x : option A) (d : A) : A :=
  match x with
  | None => d
  | Some v => v
  end.

Definition createDefaultOptions (o : Partial.IOptions) : JsError + IOptions :=
  match Partial.name o with
  | None => inl (Error "name is required.")
  | Some name =>
  match Partial.domains o with
  | None => inl (Error "domains is required.")
  | Some domains =>
  match Partial.cookieSecret o with
  | None => inl (Error "cookieSecret is required.")
  | Some cookieSecret =>
  match Partial.webmasterMail o with
  | None => inl (Error "webmasterMail is required.")
  | Some webmasterMail =>
    inr {| debug := orDefault (Partial.debug o) (Some defaultDebug);
           isDevelopment := orDefault (Partial.isDevelopment o) false;
           agreeGreenlockTos := orDefault (Partial.agreeGreenlockTos o) false;
           staticFiles := orDefault (Partial.staticFiles o) None;
           maxPayloadSize := orDefault (Partial.maxPayloadSize o) (100 * 1024)%Z;
           ssl := orDefault (Partial.ssl o) SslLetsEncrypt;
           letsEncryptCertDirectory :=
             orDefault (Partial.letsEncryptCertDirectory o) "./.certs/";
           name := name;
           webmasterMail := webmasterMail;
           domains := domains;
           cookieSecret := cookieSecret |}
  end end end end.

(** ** Listeners and their connections *)

(** A [net.Socket] as the program sees it: the two fields the registry key
    is built from and the [destroyed] flag.  [endsAt] belongs to the peer:
    the tick at which the connection ends by itself, if it ever does. *)
Record Socket := {
  remoteAddress : string;
  remotePort : Z;
  destroyed : bool;
  endsAt : option nat
}.

(** [conn.remoteAddress + ':' + conn.remotePort] *)
Definition connKey (conn : Socket) : string :=
  remoteAddress conn +:+ ":" +:+ pretty (remotePort conn).

(** What [greenlockOptions()] returns. *)
Module Greenlock.
Record Options := {
  agreeTos : bool;
  version : string;
  server : string;
  email : string;
  approveDomains : list string;
  configDir : string;
  debug : bool;
  communityMember : bool;
  telemetry : bool
}.
End Greenlock.

(** What [spdyOptions()] returns. *)
Module Spdy.
Record Options := {
  key : string;
  cert : string
}.
End Spdy.

(** The four places where [startListening] creates a server and binds it. *)
Inductive ListenCall :=
| FallbackListen (port : Z)
    (* fallbackServer.listen(this._portHttp, cb) *)
| GreenlockListen (o : Greenlock.Options) (http : option Z) (https : option Z)
    (* greenlock.create({...}).listen(this._portHttp, this._portHttps, cb) *)
| AppListen (port : Z)
    (* this._app.listen(this._portHttp, cb) *)
| SpdyListen (o : Spdy.Options) (https : option Z).
    (* spdy.createServer(this.spdyOptions(), this._app).listen(this._portHttps, cb) *)

(** The ports a call asks the runtime to bind. *)
Definition portsOf (c : ListenCall) : list Z :=
  match c with
  | FallbackListen p => [p]
  | GreenlockListen _ http https => (option_list http ++ option_list https)%list
  | AppListen p => [p]
  | SpdyListen _ https => option_list https
  end.

(** [HttpOrHttpsServer]: the server object, with the [destroy] capability
    (present or not) and, next to it, the [connections] object that
    [enableDestroy] keeps in its closure for this server. *)
Record HttpOrHttpsServer := {
  origin : ListenCall;
  listening : bool;
  destroy : bool;
  connections : gmap string Socket
}.

(** ** Callbacks and promises *)

(** How the runtime answers a node-style callback [(err) => ...]: called
    without error at tick [t], called with [err] at tick [t], or never. *)
Inductive Callback :=
| CbOk (t : nat)
| CbErr (t : nat) (e : JsError)
| CbNever.

(** The final state of a promise. *)
Inductive Promise (A : Type) :=
| Fulfilled (t : nat) (v : A)
| Rejected (t : nat) (e : JsError)
| Pending.
Arguments Fulfilled {A} t v.
Arguments Rejected {A} t e.
Arguments Pending {A}.

(** [new Promise((resolve, reject) => f((err) => err ? reject(err) : resolve(v)))] *)
Definition promiseOfCallback {A} (cb : Callback) (v : A) : Promise A :=
  match cb with
  | CbOk t => Fulfilled t v
  | CbErr t e => Rejected t e
  | CbNever => Pending
  end.

(** The earliest rejection among promises, the leftmost one on a tie
    (reactions of promises settled in the same tick run in array order). *)
Fixpoint firstRejection {A} (ps : list (Promise A)) : option (nat * JsError) :=
  match ps with
  | [] => None
  | p :: ps' =>
    match p, firstRejection ps' with
    | Rejected t e, Some (t', e') => if (t <=? t')%nat then Some (t, e) else Some (t', e')
    | Rejected t e, None => Some (t, e)
    | _, r => r
    end
  end.

(** All values with the tick of the last fulfilment, unless one is missing. *)
Fixpoint allFulfilled {A} (ps : list (Promise A)) : option (nat * list A) :=
  match ps with
  | [] => Some (0%nat, [])
  | Fulfilled t v :: ps' =>
    match allFulfilled ps' with
    | Some (t', vs) => Some (Nat.max t t', v :: vs)
    | None => None
    end
  | _ :: _ => None
  end.

(** [Promise.all(ps)]: rejected as soon as one promise is, with that
    promise's reason; fulfilled with all values, in order, once every
    promise is; pending otherwise. *)
Definition Promise_all {A} (ps : list (Promise A)) : Promise (list A) :=
  match firstRejection ps with
  | Some (t, e) => Rejected t e
  | None =>
    match allFulfilled ps with
    | Some (t, vs) => Fulfilled t vs
    | None => Pending
    end
  end.

Definition isFulfilled {A} (p : Promise A) : bool :=
  match p with
  | Fulfilled _ _ => true
  | _ => false
  end.

Definition isRejected {A} (p : Promise A) : bool :=
  match p with
  | Rejected _ _ => true
  | _ => false
  end.

Definition cbOk (cb : Callback) : bool :=
  match cb with
  | CbOk _ => true
  | _ => false
  end.

(** ** The world outside the server object *)

(** Arguments handed to the debug sink and to [console.log]. *)
Inductive JsValue :=
| VString (s : string)
| VNumber (n : Z)
| VNull
| VOptions (o : IOptions).

Definition portValue (p : option Z) : JsValue :=
  match p with
  | Some n => VNumber n
  | None => VNull
  end.

(** What the program does to its surroundings, in program order. *)
Inductive Action :=
| ConsoleLog (args : list JsValue)
| CallDebug (id : nat) (level : string) (args : list JsValue)
| Emit (event : string)
| Listen (c : ListenCall)
| ServerClose (srv : HttpOrHttpsServer)
| SocketDestroy (k : string) (conn : Socket).

(** [process.env] and the actions performed so far. *)
Record World := {
  env : gmap string string;
  trace : list Action
}.

Definition log (a : Action) (w : World) : World :=
  {| env := env w; trace := trace w ++ [a] |}.

(** [process.env[k] = v] *)
Definition setEnv (k v : string) (w : World) : World :=
  {| env := <[k := v]> (env w); trace := trace w |}.

(** The second argument of [console.log] in [defaultDebug], byte for byte. *)
Definition debugPrefix : string := "üè∞ ".

(** What calling a sink does: [defaultDebug] is
    [(level, ...args) => console.log("[" + level + "]", prefix, ...args)];
    a caller's sink is observed as the call itself. *)
Definition debugAction (f : DebugFn) (level : string) (args : list JsValue) : Action :=
  match f with
  | defaultDebug =>
      ConsoleLog (VString ("[" +:+ level +:+ "]") :: VString debugPrefix :: args)
  | customDebug id => CallDebug id level args
  end.

Definition callDebug (f : DebugFn) (level : string) (args : list JsValue)
    (w : World) : World :=
  log (debugAction f level args) w.

(** [this._options.debug && this._options.debug(level, ...args)] *)
Definition debugLog (o : IOptions) (level : string) (args : list JsValue)
    (w : World) : World :=
  match debug o with
  | Some f => callDebug f level args w
  | None => w
  end.

(** ** The server object *)

(** The middleware [basicSetup] installs on the express application, by
    the options each is given. *)
Inductive Middleware :=
| Compression (skipAll : bool)
| Json (limit : Z)
| Urlencoded (limit : Z) (extended : bool)
| Static (mount root : string)
| Session (cookieName : string) (httpOnly sameSite secure : bool)
          (resave saveUninitialized : bool) (unset secret : string).

Record Server := {
  _options : IOptions;
  _app : list Middleware;
  _server : list HttpOrHttpsServer;
  _portHttp : option Z;
  _portHttps : option Z
}.

(** [get app()] and [get server()] *)
Definition app (s : Server) : list Middleware := _app s.

Definition server (s : Server) : list HttpOrHttpsServer := _server s.

Definition isSslNone (v : SslOption) : bool :=
  match v with
  | SslNone => true
  | _ => false
  end.

Definition isLetsEncrypt (v : SslOption) : bool :=
  match v with
  | SslLetsEncrypt => true
  | _ => false
  end.

Definition basicSetup (o : IOptions) : list Middleware :=
  [Compression (isDevelopment o);
   Json (maxPayloadSize o);
   Urlencoded (maxPayloadSize o) true]
  ++ match staticFiles o with
     | Some sf => [Static (serve sf) (from sf)]
     | None => []
     end
  ++ [Session (name o) true true (negb (isSslNone (ssl o))) false false
              "destroy" (cookieSecret o)].

(** The fields of a new object: the application with its middleware, no
    server, no ports. *)
Definition freshServer (o : IOptions) : Server :=
  {| _options := o;
     _app := basicSetup o;
     _server := [];
     _portHttp := None;
     _portHttps := None |}.

(** [new Server(options)]: a thrown error is the [inl] result. *)
Definition newServer (options : Partial.IOptions) (w : World)
    : (JsError + Server) * World :=
  match createDefaultOptions options with
  | inl e => (inl e, w)
  | inr o =>
      let w := debugLog o "debug" [VString "Options"; VOptions o] w in
      (inr (freshServer o), w)
  end.

Definition setPorts (http https : option Z) (s : Server) : Server :=
  {| _options := _options s; _app := _app s; _server := _server s;
     _portHttp := http; _portHttps := https |}.

Definition setServers (l : list HttpOrHttpsServer) (s : Server) : Server :=
  {| _options := _options s; _app := _app s; _server := l;
     _portHttp := _portHttp s; _portHttps := _portHttps s |}.

(** [this._server.push(srv)] *)
Definition pushServer (srv : HttpOrHttpsServer) (s : Server) : Server :=
  setServers (_server s ++ [srv]) s.

(** [this.emit(event, this)] *)
Definition emitEvent (event : string) (w : World) : World :=
  log (Emit event) w.

Definition greenlockOptions (s : Server) : Greenlock.Options :=
  let o := _options s in
  {| Greenlock.agreeTos := agreeGreenlockTos o;
     Greenlock.version := "draft-11";
     Greenlock.server :=
       if isDevelopment o
       then "https://acme-staging-v02.api.letsencrypt.org/directory"
       else "https://acme-v02.api.letsencrypt.org/directory";
     Greenlock.email := webmasterMail o;
     Greenlock.approveDomains := domains o;
     Greenlock.configDir := letsEncryptCertDirectory o;
     Greenlock.debug := match debug o with Some _ => true | None => false end;
     Greenlock.communityMember := false;
     Greenlock.telemetry := false |}.

Definition spdyOptions (s : Server) : Spdy.Options :=
  {| Spdy.key := match ssl (_options s) with SslManual m => key m | _ => "" end;
     Spdy.cert := match ssl (_options s) with SslManual m => cert m | _ => "" end |}.

(** ** enableDestroy *)

(** The server a [listen] call returns.  It is returned at once; whether
    it ends up listening is the runtime's answer to the callback. *)
Definition createListening (cb : Callback) (c : ListenCall) : HttpOrHttpsServer :=
  {| origin := c; listening := cbOk cb; destroy := false; connections := ∅ |}.

(** [enableDestroy(server0)]: a fresh, empty [connections] object and the
    [destroy] method. *)
Definition enableDestroy (server0 : HttpOrHttpsServer) : HttpOrHttpsServer :=
  {| origin := origin server0; listening := listening server0;
     destroy := true; connections := ∅ |}.

Definition setConnections (m : gmap string Socket) (srv : HttpOrHttpsServer)
    : HttpOrHttpsServer :=
  {| origin := origin srv; listening := listening srv;
     destroy := destroy srv; connections := m |}.

(** The ['connection'] handler: [connections[key] = conn]. *)
Definition onConnection (conn : Socket) (srv : HttpOrHttpsServer) : HttpOrHttpsServer :=
  setConnections (<[connKey conn := conn]> (connections srv)) srv.

(** The handler installed by [conn.once('close', ...)]:
    [delete connections[key]]. *)
Definition onSocketClose (k : string) (srv : HttpOrHttpsServer) : HttpOrHttpsServer :=
  setConnections (delete k (connections srv)) srv.

(** [conn.destroy()] *)
Definition socketDestroy (conn : Socket) : Socket :=
  {| remoteAddress := remoteAddress conn; remotePort := remotePort conn;
     destroyed := true; endsAt := endsAt conn |}.

(** [net.Server.close]: the server stops listening. *)
Definition stopListening (srv : HttpOrHttpsServer) : HttpOrHttpsServer :=
  {| origin := origin srv; listening := false;
     destroy := destroy srv; connections := connections srv |}.

(** [for (let key in connections) connections[key].destroy()].  The
    program visits the keys in insertion order, the map in key order: the
    sockets destroyed are the same. *)
Definition destroyLoop (srv : HttpOrHttpsServer) (w : World)
    : HttpOrHttpsServer * World :=
  (setConnections (socketDestroy <$> connections srv) srv,
   foldl (fun w kc => log (SocketDestroy kc.1 kc.2) w) w
         (map_to_list (connections srv))).

(** A destroyed socket emits ['close'], which runs the handler installed
    for it at registration.  [deliverCloseEvents] runs those handlers for
    every destroyed socket of the registry. *)
Definition deliverCloseEvents (srv : HttpOrHttpsServer) : HttpOrHttpsServer :=
  foldr (fun kc srv => if destroyed kc.2 then onSocketClose kc.1 srv else srv)
        srv (map_to_list (connections srv)).

(** ** The fallback application *)

Inductive Method := GET | HEAD | POST | PUT | DELETE | PATCH | OPTIONS.

(** The parts of a request the fallback reads: [req.method],
    [req.headers.host] (may be [undefined]) and [req.url], the path with
    its query string. *)
Record Request := {
  method : Method;
  host : option string;
  url : string
}.

Inductive Response :=
| Redirect (location : string)        (* res.redirect(location) *)
| NotFound                            (* no route matched *)
| Allow (methods : list Method).      (* the automatic answer to OPTIONS *)

(** String concatenation turns [undefined] and [null] into their names. *)
Definition hostString (h : option string) : string :=
  match h with
  | Some s => s
  | None => "undefined"
  end.

Definition portString (p : option Z) : string :=
  match p with
  | Some n => pretty n
  | None => "null"
  end.

(** [(req, res) => res.redirect("https://" + req.headers.host + ":" +
    this._portHttps + req.url)]; [this._portHttps] is read when the
    request is served. *)
Definition fallbackHandler (s : Server) (req : Request) : Response :=
  Redirect ("https://" +:+ hostString (host req) +:+ ":"
            +:+ portString (_portHttps s) +:+ url req).

(** [fallbackServer.get("*", handler)]: the only route of the application.
    A [get] route answers GET and HEAD on every path; OPTIONS is answered
    with the methods of the matching routes; nothing else matches. *)
Definition fallbackServer (s : Server) (req : Request) : Response :=
  match method req with
  | GET | HEAD => fallbackHandler s req
  | OPTIONS => Allow [GET; HEAD]
  | _ => NotFound
  end.

(** A request arriving at a listener.  Only the fallback application is
    part of this program; the main application's routes are the caller's. *)
Definition serveOn (s : Server) (srv : HttpOrHttpsServer) (req : Request)
    : option Response :=
  match origin srv with
  | FallbackListen _ => if listening srv then Some (fallbackServer s req) else None
  | _ => None
  end.

(** ** listen *)

Definition TLS_FLAG : string := "NODE_TLS_REJECT_UNAUTHORIZED".

(** One [new Promise(... this._server.push(enableDestroy(X.listen(...,
    (err) => err ? reject(err) : resolve(v)))))]. *)
Definition bindAndPush {A} (net : ListenCall -> Callback) (c : ListenCall) (v : A)
    (s : Server) (w : World) : Promise A * Server * World :=
  (promiseOfCallback (net c) v,
   pushServer (enableDestroy (createListening (net c) c)) s,
   log (Listen c) w).

(** The fallback part of [startListening]. *)
Definition startFallback (net : ListenCall -> Callback) (s : Server) (w : World)
    : Promise (option Z) * Server * World :=
  match _portHttp s with
  | Some http =>
      if negb (isLetsEncrypt (ssl (_options s))) && negb (isSslNone (ssl (_options s)))
      then bindAndPush net (FallbackListen http) (Some http) s w
      else (Fulfilled 0 (Some http), s, w)
  | None => (Fulfilled 0 None, s, w)
  end.

(** The part of [startListening] that dispatches on [this._options.ssl]
    and starts the main listener. *)
Definition startMain (net : ListenCall -> Callback) (s : Server) (w : World)
    : Promise (option Z) * Server * World :=
  match ssl (_options s) with
  | SslLetsEncrypt =>
      let w := if isDevelopment (_options s) then setEnv TLS_FLAG "0" w else w in
      bindAndPush net (GreenlockListen (greenlockOptions s) (_portHttp s) (_portHttps s))
                  (_portHttps s) s w
  | SslNone =>
      match _portHttp s with
      | None => (Rejected 0 (Error "Cannot listen on HTTP without HTTP port."), s, w)
      | Some http => bindAndPush net (AppListen http) (Some http) s w
      end
  | SslManual m =>
      let w := if allowUnsigned m || isDevelopment (_options s)
               then setEnv TLS_FLAG "0" w else w in
      bindAndPush net (SpdyListen (spdyOptions s) (_portHttps s)) (_portHttps s) s w
  end.

Definition startListening (net : ListenCall -> Callback) (s : Server) (w : World)
    : Promise (list HttpOrHttpsServer) * Server * World :=
  let w := debugLog (_options s) "info"
             [VString "Going to listen"; portValue (_portHttps s); portValue (_portHttp s)] w in
  let w := emitEvent "beforeListen" w in
  let '(fallback, s, w) := startFallback net s w in
  let '(main, s, w) := startMain net s w in
  match Promise_all [main; fallback] with
  | Fulfilled t _ =>
      let w := debugLog (_options s) "info"
                 [VString "Listening"; portValue (_portHttps s); portValue (_portHttp s)] w in
      let w := emitEvent "listen" w in
      (Fulfilled t (_server s), s, w)
  | Rejected t e => (Rejected t e, s, w)
  | Pending => (Pending, s, w)
  end.

(** [listen(https = 443, http = 80)]; the defaults are the caller's to
    fill in: [listen net 443 (Some 80)]. *)
Definition listen (net : ListenCall -> Callback) (https : Z) (http : option Z)
    (s : Server) (w : World) : Promise (list HttpOrHttpsServer) * Server * World :=
  startListening net (setPorts http (Some https) s) w.

(** ** close *)

Section Close.

(** The runtime's answer to [server.close(callback)], given the server
    as the current turn of the event loop leaves it. *)
Variable closeCb : HttpOrHttpsServer -> Callback.

(** The body of the loop of [close] for one server: the promise pushed,
    and the server as the call leaves it. *)
Definition closeOne (now : bool) (srv : HttpOrHttpsServer) (w : World)
    : Promise HttpOrHttpsServer * World :=
  if now && destroy srv then
    (* srv.destroy(callback) *)
    let w := log (ServerClose srv) w in
    let '(srv', w) := destroyLoop srv w in
    (promiseOfCallback (closeCb srv') (stopListening srv'), w)
  else
    (* srv.close(callback) *)
    (promiseOfCallback (closeCb srv) (stopListening srv), log (ServerClose srv) w).

Fixpoint closeEach (now : bool) (l : list HttpOrHttpsServer) (w : World)
    : list (Promise HttpOrHttpsServer) * World :=
  match l with
  | [] => ([], w)
  | srv :: l' =>
      let '(p, w) := closeOne now srv w in
      let '(ps, w) := closeEach now l' w in
      (p :: ps, w)
  end.

(** [close(now = false)] *)
Definition close (now : bool) (s : Server) (w : World)
    : Promise (list HttpOrHttpsServer) * Server * World :=
  let s := setPorts None None s in
  let '(promises, w) := closeEach now (_server s) w in
  let s := setServers [] s in
  (Promise_all promises, s, w).

End Close.

(** ** The runtime's [server.close] *)

(** When a connection is over: at once if it was destroyed, else when the
    peer ends it. *)
Definition socketEnd (conn : Socket) : option nat :=
  if destroyed conn then Some 0%nat else endsAt conn.

(** The tick by which all of the given connections are over. *)
Fixpoint lastEnd (l : list Socket) : option nat :=
  match l with
  | [] => Some 0%nat
  | c :: l' =>
      match socketEnd c, lastEnd l' with
      | Some t, Some t' => Some (Nat.max t t')
      | _, _ => None
      end
  end.

(** Node's documented behaviour: a server that is not listening calls back
    with an error; a listening one calls back when all its connections are
    ended. *)
Definition nodeClose (srv : HttpOrHttpsServer) : Callback :=
  if listening srv then
    match lastEnd (map_to_list (connections srv)).*2 with
    | Some t => CbOk t
    | None => CbNever
    end
  else CbErr 0 (Error "Server is not running.").

(** ** Observations on runs *)

(** The actions a step added to the world. *)
Definition newActions (w w' : World) : list Action :=
  drop (length (trace w)) (trace w').

Definition isListen (a : Action) : bool :=
  match a with
  | Listen _ => true
  | _ => false
  end.

Definition isEmit (event : string) (a : Action) : bool :=
  match a with
  | Emit e => bool_decide (e = event)
  | _ => false
  end.

Definition isDebug (a : Action) : bool :=
  match a with
  | ConsoleLog _ | CallDebug _ _ _ => true
  | _ => false
  end.

Definition isServerClose (a : Action) : bool :=
  match a with
  | ServerClose _ => true
  | _ => false
  end.

Definition isSocketDestroy (a : Action) : bool :=
  match a with
  | SocketDestroy _ _ => true
  | _ => false
  end.

(** How often an action of a kind occurs. *)
Definition count (f : Action -> bool) (l : list Action) : nat :=
  length (filter (fun a => f a = true) l).

(** The binds one [startListening] asks for, in program order. *)
Definition fallbackCall (s : Server) : option ListenCall :=
  match _portHttp s with
  | Some http =>
      if negb (isLetsEncrypt (ssl (_options s))) && negb (isSslNone (ssl (_options s)))
      then Some (FallbackListen http) else None
  | None => None
  end.

Definition mainCall (s : Server) : option ListenCall :=
  match ssl (_options s) with
  | SslLetsEncrypt =>
      Some (GreenlockListen (greenlockOptions s) (_portHttp s) (_portHttps s))
  | SslNone => AppListen <$> _portHttp s
  | SslManual _ => Some (SpdyListen (spdyOptions s) (_portHttps s))
  end.

Definition bindCalls (s : Server) : list ListenCall :=
  option_list (fallbackCall s) ++ option_list (mainCall s).

(** The server object a bind leaves in the handle list. *)
Definition handleOf (net : ListenCall -> Callback) (c : ListenCall) : HttpOrHttpsServer :=
  enableDestroy (createListening (net c) c).

(** The calls to the debug sink around listening. *)
Definition debugActions (o : IOptions) (level : string) (args : list JsValue)
    : list Action :=
  match debug o with
  | Some f => [debugAction f level args]
  | None => []
  end.

(** Whether the configuration makes [startListening] relax TLS
    verification for the whole process. *)
Definition relaxesTls (o : IOptions) : bool :=
  match ssl o with
  | SslLetsEncrypt => isDevelopment o
  | SslNone => false
  | SslManual m => allowUnsigned m || isDevelopment o
  end.

(** The errors the program creates itself, all about the configuration:
    a missing required option, or plaintext mode without a plaintext port. *)
Definition isConfigurationError (e : JsError) : bool :=
  match e with
  | Error message =>
      bool_decide (message ∈ ["name is required."; "domains is required.";
                              "cookieSecret is required."; "webmasterMail is required.";
                              "Cannot listen on HTTP without HTTP port."])
  | AggregateError _ => false
  end.

(** The reasons of the rejected promises of a list. *)
Definition rejections {A} (ps : list (Promise A)) : list JsError :=
  omap (fun p => match p with Rejected _ e => Some e | _ => None end) ps.

(** The server as one iteration of the loop of [close] leaves it, before
    the runtime has answered: with its sockets destroyed if [destroy] was
    called, untouched if [close] was. *)
Definition afterCloseCall (now : bool) (srv : HttpOrHttpsServer) : HttpOrHttpsServer :=
  if now && destroy srv
  then setConnections (socketDestroy <$> connections srv) srv
  else srv.

(** The actions of one iteration of the loop of [close]. *)
Definition closeActions (now : bool) (srv : HttpOrHttpsServer) : list Action :=
  ServerClose srv ::
  (if now && destroy srv
   then (fun kc => SocketDestroy kc.1 kc.2) <$> map_to_list (connections srv)
   else []).

(** The promise one iteration of the loop of [close] pushes. *)
Definition closePromise (closeCb : HttpOrHttpsServer -> Callback) (now : bool)
    (srv : HttpOrHttpsServer) : Promise HttpOrHttpsServer :=
  promiseOfCallback (closeCb (afterCloseCall now srv))
                    (stopListening (afterCloseCall now srv)).

(** A rejection that aggregates the given failures: its reason is one
    error collecting all of them. *)
Definition aggregates {A} (r : Promise A) (failures : list JsError) : Prop :=
  exists t es, r = Rejected t (AggregateError es) /\ es ≡ₚ failures.

(** A server object is idle when it holds no handle and no port. *)
Definition isIdle (s : Server) : Prop :=
  _server s = [] /\ _portHttp s = None /\ _portHttps s = None.

(** ** Sample data *)

Definition noOptions : Partial.IOptions :=
  {| Partial.name := None; Partial.domains := None; Partial.cookieSecret := None;
     Partial.webmasterMail := None; Partial.isDevelopment := None;
     Partial.ssl := None; Partial.letsEncryptCertDirectory := None;
     Partial.agreeGreenlockTos := None; Partial.staticFiles := None;
     Partial.maxPayloadSize := None; Partial.debug := None |}.

(** The four required options and nothing else. *)
Definition requiredOnly : Partial.IOptions :=
  {| Partial.name := Some "my-redoubt-server";
     Partial.domains := Some ["localhost"];
     Partial.cookieSecret := Some "maggots-at-the-party";
     Partial.webmasterMail := Some "webmaster@localhost";
     Partial.isDevelopment := None;
     Partial.ssl := None; Partial.letsEncryptCertDirectory := None;
     Partial.agreeGreenlockTos := None; Partial.staticFiles := None;
     Partial.maxPayloadSize := None; Partial.debug := None |}.

Definition withSsl (v : SslOption) (dbg : option (option DebugFn))
    (o : Partial.IOptions) : Partial.IOptions :=
  {| Partial.name := Partial.name o; Partial.domains := Partial.domains o;
     Partial.cookieSecret := Partial.cookieSecret o;
     Partial.webmasterMail := Partial.webmasterMail o;
     Partial.isDevelopment := Partial.isDevelopment o;
     Partial.ssl := Some v;
     Partial.letsEncryptCertDirectory := Partial.letsEncryptCertDirectory o;
     Partial.agreeGreenlockTos := Partial.agreeGreenlockTos o;
     Partial.staticFiles := Partial.staticFiles o;
     Partial.maxPayloadSize := Partial.maxPayloadSize o;
     Partial.debug := dbg |}.

Definition manualCert (unsigned : bool) : SslOption :=
  SslManual {| key := "KEY"; cert := "CERT"; allowUnsigned := unsigned |}.

Definition world0 : World := {| env := ∅; trace := [] |}.

(** The options of the development example, with the given [ssl] and
    [debug]. *)
Definition sampleOptions (v : SslOption) (dbg : option DebugFn) : IOptions :=
  {| name := "my-redoubt-server";
     domains := ["localhost"];
     cookieSecret := "maggots-at-the-party";
     webmasterMail := "webmaster@localhost";
     isDevelopment := false;
     ssl := v;
     letsEncryptCertDirectory := "./.certs/";
     agreeGreenlockTos := false;
     staticFiles := None;
     maxPayloadSize := 102400;
     debug := dbg |}.

Definition manualServer : Server := freshServer (sampleOptions (manualCert false) None).

Definition plainServer : Server := freshServer (sampleOptions SslNone None).

(** Every bind succeeds at tick 1. *)
Definition allBind : ListenCall -> Callback := fun _ => CbOk 1.

(** Every bind fails at tick 1 with "address in use". *)
Definition noneBind : ListenCall -> Callback :=
  fun _ => CbErr 1 (Error "listen EADDRINUSE").

(** The secured port is taken.  The callback handed to [listen(port, cb)]
    is called when the server listens and not otherwise: the runtime
    reports a failed bind as an ['error'] event, for which the program
    installs no listener.  So the fallback's callback is called and the
    main listener's never is. *)
Definition securedPortTaken : ListenCall -> Callback :=
  fun c => match c with
           | FallbackListen _ => CbOk 1
           | _ => CbNever
           end.

(** The fallback binds, the main listener does not. *)
Definition onlyFallbackBinds : ListenCall -> Callback :=
  fun c => match c with
           | FallbackListen _ => CbOk 1
           | _ => CbErr 2 (Error "listen EADDRINUSE")
           end.

(** The manual-certificate server after a [listen(8443, 8080)] whose two
    binds both failed: the two handles stay in its list, not listening. *)
Definition failedServer : Server :=
  (listen noneBind 8443 (Some 8080%Z) manualServer world0).1.2.

(** The manual-certificate server after a [listen(8443, 8080)] whose two
    binds both succeeded. *)
Definition listeningServer : Server :=
  (listen allBind 8443 (Some 8080%Z) manualServer world0).1.2.

(** The binds [listen(https, http)] asks for. *)
Definition listenCalls (https : Z) (http : option Z) (s : Server) : list ListenCall :=
  bindCalls (setPorts http (Some https) s).

(** An open connection from the given peer. *)
Definition peer (addr : string) (port : Z) (ends : option nat) : Socket :=
  {| remoteAddress := addr; remotePort := port; destroyed := false; endsAt := ends |}.

(** [listeningServer] with two connections accepted on each listener: one
    that its peer ends at tick 7, one that its peer never ends. *)
Definition busyServer : Server :=
  setServers
    ((fun srv => onConnection (peer "10.0.0.1" 50001 (Some 7%nat))
                   (onConnection (peer "10.0.0.2" 50002 None) srv))
       <$> _server listeningServer)
    listeningServer.

(** A required option is absent. *)
Definition requiredAbsent (o : Partial.IOptions) : Prop :=
  Partial.name o = None \/ Partial.domains o = None \/
  Partial.cookieSecret o = None \/ Partial.webmasterMail o = None.

(** A valid configuration: the four required options are present, the
    domain list is not empty, and the maximal payload size, if given, is
    positive. *)
Definition validConfiguration (o : Partial.IOptions) : Prop :=
  is_Some (Partial.name o) /\
  (exists ds, Partial.domains o = Some ds /\ ds <> []) /\
  is_Some (Partial.cookieSecret o) /\
  is_Some (Partial.webmasterMail o) /\
  (forall n, Partial.maxPayloadSize o = Some n -> (0 < n)%Z).

(** The requests of the example: the same path and query, asked for with
    GET and with POST. *)
Definition getFoo : Request :=
  {| method := GET; host := Some "example.org"; url := "/foo?x=1" |}.

Definition postFoo : Request :=
  {| method := POST; host := Some "example.org"; url := "/foo?x=1" |}.

(** A manual-certificate server that allows unsigned certificates, with
    the ports of [listen(8443, 8080)] stored. *)
Definition unsignedServer : Server :=
  setPorts (Some 8080%Z) (Some 8443%Z)
           (freshServer (sampleOptions (manualCert true) None)).

(** ** The object model beyond single calls *)

(** A resolved [IOptions] value is also a [Partial<IOptions>]: every field
    is present. *)
Definition toPartial (o : IOptions) : Partial.IOptions :=
  {| Partial.name := Some (name o);
     Partial.domains := Some (domains o);
     Partial.cookieSecret := Some (cookieSecret o);
     Partial.webmasterMail := Some (webmasterMail o);
     Partial.isDevelopment := Some (isDevelopment o);
     Partial.ssl := Some (ssl o);
     Partial.letsEncryptCertDirectory := Some (letsEncryptCertDirectory o);
     Partial.agreeGreenlockTos := Some (agreeGreenlockTos o);
     Partial.staticFiles := Some (staticFiles o);
     Partial.maxPayloadSize := Some (maxPayloadSize o);
     Partial.debug := Some (debug o) |}.

(** What can happen to a server object and its listeners: a call of
    [listen], a call of [close], the ['connection'] event of the [i]-th
    handle of the list, and the ['close'] event of a socket registered
    there under key [k]. *)
Inductive Op :=
| OpListen (net : ListenCall -> Callback) (https : Z) (http : option Z)
| OpClose (closeCb : HttpOrHttpsServer -> Callback) (now : bool)
| OpConnection (i : nat) (conn : Socket)
| OpSocketClose (i : nat) (k : string).

Definition step (op : Op) (sw : Server * World) : Server * World :=
  match op with
  | OpListen net https http =>
      let run := listen net https http sw.1 sw.2 in (run.1.2, run.2)
  | OpClose closeCb now =>
      let run := close closeCb now sw.1 sw.2 in (run.1.2, run.2)
  | OpConnection i conn =>
      (setServers (alter (onConnection conn) i (_server sw.1)) sw.1, sw.2)
  | OpSocketClose i k =>
      (setServers (alter (onSocketClose k) i (_server sw.1)) sw.1, sw.2)
  end.

Definition runOps (ops : list Op) (sw : Server * World) : Server * World :=
  foldl (fun sw op => step op sw) sw ops.

Definition isOpListen (op : Op) : bool :=
  match op with
  | OpListen _ _ _ => true
  | _ => false
  end.

Definition isSession (m : Middleware) : bool :=
  match m with
  | Session _ _ _ _ _ _ _ _ => true
  | _ => false
  end.

(** Whether a character occurs in a string. *)
Fixpoint occurs (c : Ascii.ascii) (s : string) : bool :=
  match s with
  | EmptyString => false
  | String c' s' => bool_decide (c' = c) || occurs c s'
  end.

(** A socket-destroy action for the given registry key. *)
Definition isDestroyOf (k : string) (a : Action) : bool :=
  match a with
  | SocketDestroy k' _ => bool_decide (k' = k)
  | _ => false
  end.

(** ** The earlier version of the class

    The repository also holds the class as it was before [ssl: "none"],
    [close] and the handle list were added: the option is called [certs],
    the main server is kept in a single field, and the fallback server is
    kept nowhere. *)

Module V1.

(** ["letsEncrypt" | { key, cert, allowUnsigned }] *)
Inductive Certs :=
| CertsLetsEncrypt
| CertsManual (m : ManualSsl).

Record IOptions := {
  name : string;
  domains : list string;
  cookieSecret : string;
  webmasterMail : string;
  isDevelopment : bool;
  certs : Certs;
  letsEncryptCertDirectory : string;
  agreeGreenlockTos : bool;
  staticFiles : option StaticFiles;
  maxPayloadSize : Z;
  debug : option DebugFn
}.

Module Partial.
Record IOptions := {
  name : option string;
  domains : option (list string);
  cookieSecret : option string;
  webmasterMail : option string;
  isDevelopment : option bool;
  certs : option Certs;
  letsEncryptCertDirectory : option string;
  agreeGreenlockTos : option bool;
  staticFiles : option (option StaticFiles);
  maxPayloadSize : option Z;
  debug : option (option DebugFn)
}.
End Partial.

Definition createDefaultOptions (o : Partial.IOptions) : JsError + IOptions :=
  match Partial.name o with
  | None => inl (Error "name is required.")
  | Some name =>
  match Partial.domains o with
  | None => inl (Error "domains is required.")
  | Some domains =>
  match Partial.cookieSecret o with
  | None => inl (Error "cookieSecret is required.")
  | Some cookieSecret =>
  match Partial.webmasterMail o with
  | None => inl (Error "webmasterMail is required.")
  | Some webmasterMail =>
    inr {| debug := orDefault (Partial.debug o) (Some defaultDebug);
           isDevelopment := orDefault (Partial.isDevelopment o) false;
           agreeGreenlockTos := orDefault (Partial.agreeGreenlockTos o) false;
           staticFiles := orDefault (Partial.staticFiles o) None;
           maxPayloadSize := orDefault (Partial.maxPayloadSize o) (100 * 1024)%Z;
           certs := orDefault (Partial.certs o) CertsLetsEncrypt;
           letsEncryptCertDirectory :=
             orDefault (Partial.letsEncryptCertDirectory o) "./.certs/";
           name := name;
           webmasterMail := webmasterMail;
           domains := domains;
           cookieSecret := cookieSecret |}
  end end end end.

(** [private _server: any = null]: the one server kept, as [listen]
    returned it. *)
Record Server := {
  _options : IOptions;
  _app : list Middleware;
  _server : option HttpOrHttpsServer;
  _portHttp : option Z;
  _portHttps : option Z
}.

Definition isLetsEncrypt (c : Certs) : bool :=
  match c with
  | CertsLetsEncrypt => true
  | CertsManual _ => false
  end.

(** As in the later version, but the session cookie is always secure. *)
Definition basicSetup (o : IOptions) : list Middleware :=
  [Compression (isDevelopment o);
   Json (maxPayloadSize o);
   Urlencoded (maxPayloadSize o) true]
  ++ match staticFiles o with
     | Some sf => [Static (serve sf) (from sf)]
     | None => []
     end
  ++ [Session (name o) true true true false false "destroy" (cookieSecret o)].

(** The fields of a new object. *)
Definition freshServer (o : IOptions) : Server :=
  {| _options := o;
     _app := basicSetup o;
     _server := None;
     _portHttp := None;
     _portHttps := None |}.

Definition setPorts (http https : option Z) (s : Server) : Server :=
  {| _options := _options s; _app := _app s; _server := _server s;
     _portHttp := http; _portHttps := https |}.

(** [this._server = srv] *)
Definition setServer (srv : HttpOrHttpsServer) (s : Server) : Server :=
  {| _options := _options s; _app := _app s; _server := Some srv;
     _portHttp := _portHttp s; _portHttps := _portHttps s |}.

(** The earlier [defaultDebug] writes a castle in front of the values. *)
Definition debugPrefix : string := "🏰 ".

Definition debugAction (f : DebugFn) (level : string) (args : list JsValue) : Action :=
  match f with
  | defaultDebug =>
      ConsoleLog (VString ("[" +:+ level +:+ "]") :: VString debugPrefix :: args)
  | customDebug id => CallDebug id level args
  end.

Definition callDebug (f : DebugFn) (level : string) (args : list JsValue)
    (w : World) : World :=
  log (debugAction f level args) w.

Definition debugLog (o : IOptions) (level : string) (args : list JsValue)
    (w : World) : World :=
  match debug o with
  | Some f => callDebug f level args w
  | None => w
  end.

Definition greenlockOptions (s : Server) : Greenlock.Options :=
  let o := _options s in
  {| Greenlock.agreeTos := agreeGreenlockTos o;
     Greenlock.version := "draft-11";
     Greenlock.server :=
       if isDevelopment o
       then "https://acme-staging-v02.api.letsencrypt.org/directory"
       else "https://acme-v02.api.letsencrypt.org/directory";
     Greenlock.email := webmasterMail o;
     Greenlock.approveDomains := domains o;
     Greenlock.configDir := letsEncryptCertDirectory o;
     Greenlock.debug := match debug o with Some _ => true | None => false end;
     Greenlock.communityMember := false;
     Greenlock.telemetry := false |}.

Definition spdyOptions (s : Server) : Spdy.Options :=
  {| Spdy.key := match certs (_options s) with
                 | CertsManual m => key m
                 | CertsLetsEncrypt => "- no key in let's encrypt mode -"
                 end;
     Spdy.cert := match certs (_options s) with
                  | CertsManual m => cert m
                  | CertsLetsEncrypt => "- no cert in let's encrypt mode -"
                  end |}.

(** The fallback: the server [fallbackServer.listen] returns is dropped. *)
Definition startFallback (net : ListenCall -> Callback) (s : Server) (w : World)
    : Promise (option Z) * World :=
  match _portHttp s with
  | Some http =>
      if negb (isLetsEncrypt (certs (_options s)))
      then (promiseOfCallback (net (FallbackListen http)) (Some http),
            log (Listen (FallbackListen http)) w)
      else (Fulfilled 0 (Some http), w)
  | None => (Fulfilled 0 None, w)
  end.

(** One [new Promise(... this._server = X.listen(..., cb))]. *)
Definition bindAndKeep (net : ListenCall -> Callback) (c : ListenCall)
    (s : Server) (w : World) : Promise (option Z) * Server * World :=
  (promiseOfCallback (net c) (_portHttps s),
   setServer (createListening (net c) c) s,
   log (Listen c) w).

Definition startMain (net : ListenCall -> Callback) (s : Server) (w : World)
    : Promise (option Z) * Server * World :=
  match certs (_options s) with
  | CertsLetsEncrypt =>
      let w := if isDevelopment (_options s) then setEnv TLS_FLAG "0" w else w in
      bindAndKeep net (GreenlockListen (greenlockOptions s) (_portHttp s) (_portHttps s)) s w
  | CertsManual m =>
      let w := if allowUnsigned m || isDevelopment (_options s)
               then setEnv TLS_FLAG "0" w else w in
      bindAndKeep net (SpdyListen (spdyOptions s) (_portHttps s)) s w
  end.

(** [startListening] returns nothing: the promise carries no value. *)
Definition startListening (net : ListenCall -> Callback) (s : Server) (w : World)
    : Promise unit * Server * World :=
  let w := debugLog (_options s) "info"
             [VString "Going to listen"; portValue (_portHttps s); portValue (_portHttp s)] w in
  let w := emitEvent "beforeListen" w in
  let '(fallback, w) := startFallback net s w in
  let '(main, s, w) := startMain net s w in
  match Promise_all [main; fallback] with
  | Fulfilled t _ =>
      let w := debugLog (_options s) "info"
                 [VString "Listening"; portValue (_portHttps s); portValue (_portHttp s)] w in
      let w := emitEvent "listen" w in
      (Fulfilled t tt, s, w)
  | Rejected t e => (Rejected t e, s, w)
  | Pending => (Pending, s, w)
  end.

Definition listen (net : ListenCall -> Callback) (https : Z) (http : option Z)
    (s : Server) (w : World) : Promise unit * Server * World :=
  startListening net (setPorts http (Some https) s) w.

End V1.

(** Moving a configuration of the earlier version to the later one:
    [certs] becomes [ssl], with the same value. *)
Definition upgradeCerts (c : V1.Certs) : SslOption :=
  match c with
  | V1.CertsLetsEncrypt => SslLetsEncrypt
  | V1.CertsManual m => SslManual m
  end.

Definition upgrade (o : V1.IOptions) : IOptions :=
  {| name := V1.name o;
     domains := V1.domains o;
     cookieSecret := V1.cookieSecret o;
     webmasterMail := V1.webmasterMail o;
     isDevelopment := V1.isDevelopment o;
     ssl := upgradeCerts (V1.certs o);
     letsEncryptCertDirectory := V1.letsEncryptCertDirectory o;
     agreeGreenlockTos := V1.agreeGreenlockTos o;
     staticFiles := V1.staticFiles o;
     maxPayloadSize := V1.maxPayloadSize o;
     debug := V1.debug o |}.

Definition upgradePartial (o : V1.Partial.IOptions) : Partial.IOptions :=
  {| Partial.name := V1.Partial.name o;
     Partial.domains := V1.Partial.domains o;
     Partial.cookieSecret := V1.Partial.cookieSecret o;
     Partial.webmasterMail := V1.Partial.webmasterMail o;
     Partial.isDevelopment := V1.Partial.isDevelopment o;
     Partial.ssl := upgradeCerts <$> V1.Partial.certs o;
     Partial.letsEncryptCertDirectory := V1.Partial.letsEncryptCertDirectory o;
     Partial.agreeGreenlockTos := V1.Partial.agreeGreenlockTos o;
     Partial.staticFiles := V1.Partial.staticFiles o;
     Partial.maxPayloadSize := V1.Partial.maxPayloadSize o;
     Partial.debug := V1.Partial.debug o |}.

(** A console line of the earlier version as the later version writes it:
    the same values behind the later prefix.  Every other action is the
    same in both. *)
Definition reprefix (a : Action) : Action :=
  match a with
  | ConsoleLog (l :: VString p :: args) =>
      if decide (p = V1.debugPrefix)
      then ConsoleLog (l :: VString debugPrefix :: args)
      else a
  | _ => a
  end.

(** The calls to the debug sink around listening, in the earlier version. *)
Definition debugActionsV1 (o : V1.IOptions) (level : string) (args : list JsValue)
    : list Action :=
  match V1.debug o with
  | Some f => [V1.debugAction f level args]
  | None => []
  end.

(** The binds one [listen] of the earlier version asks for. *)
Definition listenCallsV1 (https : Z) (http : option Z) (s : V1.Server)
    : list ListenCall :=
  match V1.certs (V1._options s), http with
  | V1.CertsManual _, Some p => [FallbackListen p]
  | _, _ => []
  end
  ++ [match V1.certs (V1._options s) with
      | V1.CertsLetsEncrypt =>
          GreenlockListen (V1.greenlockOptions s) http (Some https)
      | V1.CertsManual m =>
          SpdyListen {| Spdy.key := key m; Spdy.cert := cert m |} (Some https)
      end].

(** A promise without its value. *)
Definition settlement {A} (p : Promise A) : Promise unit :=
  match p with
  | Fulfilled t _ => Fulfilled t tt
  | Rejected t e => Rejected t e
  | Pending => Pending
  end.

(** The options of the development example in the earlier version. *)
Definition sampleOptionsV1 (c : V1.Certs) (dbg : option DebugFn) : V1.IOptions :=
  {| V1.name := "my-redoubt-server";
     V1.domains := ["localhost"];
     V1.cookieSecret := "maggots-at-the-party";
     V1.webmasterMail := "webmaster@localhost";
     V1.isDevelopment := false;
     V1.certs := c;
     V1.letsEncryptCertDirectory := "./.certs/";
     V1.agreeGreenlockTos := false;
     V1.staticFiles := None;
     V1.maxPayloadSize := 102400;
     V1.debug := dbg |}.

(** ** The publishing script

    The script that prepares [dist] for [npm publish]: it empties [dist],
    copies two files into it and writes a trimmed [package.json]. *)

(** JSON values; an object is the list of its fields in order. *)
#[warnings="-register-all"] Inductive JsonValue :=
| JNull
| JBool (b : bool)
| JNumber (n : Z)
| JString (s : string)
| JArray (items : list JsonValue)
| JObject (fields : list (string * JsonValue)).

(** [obj[k]], the first field of that name. *)
Fixpoint objGet (k : string) (fields : list (string * JsonValue)) : option JsonValue :=
  match fields with
  | [] => None
  | (k', v) :: rest => if decide (k' = k) then Some v else objGet k rest
  end.

(** [delete obj[k]] *)
Definition objDelete (k : string) (fields : list (string * JsonValue))
    : list (string * JsonValue) :=
  filter (fun kv => kv.1 <> k) fields.

(** [obj[k] = v]: the field keeps its place if it exists and is added at
    the end otherwise. *)
Fixpoint objSet (k : string) (v : JsonValue) (fields : list (string * JsonValue))
    : list (string * JsonValue) :=
  match fields with
  | [] => [(k, v)]
  | (k', v') :: rest =>
      if decide (k' = k) then (k, v) :: rest else (k', v') :: objSet k v rest
  end.

(** [delete packageJson.scripts; delete packageJson.devDependencies;
    packageJson.private = false], as it shows in what is written out.
    On [null] the first [delete] throws; on a number, string or boolean
    the three statements do nothing; on an array they do nothing that is
    serialized. *)
Definition trimManifest (packageJson : JsonValue) : JsError + JsonValue :=
  match packageJson with
  | JNull => inl (Error "Cannot convert undefined or null to object")
  | JObject fields =>
      inr (JObject (objSet "private" (JBool false)
                      (objDelete "devDependencies" (objDelete "scripts" fields))))
  | other => inr other
  end.

(** The directory of the script: its files by name, and the entries of
    its [dist] directory by name. *)
Record Project := {
  files : gmap string string;
  dist : gmap string string
}.

Definition setDist (d : gmap string string) (p : Project) : Project :=
  {| files := files p; dist := d |}.

Definition noSuchFile (f : string) : JsError :=
  Error ("ENOENT: no such file or directory, open '" +:+ f +:+ "'").

(** The loop over [files]: [fs.copyFileSync(file, dist/file)], which
    throws when the file does not exist. *)
Fixpoint copyFiles (names : list string) (p : Project) : Project * option JsError :=
  match names with
  | [] => (p, None)
  | f :: rest =>
      match files p !! f with
      | None => (p, Some (noSuchFile f))
      | Some content => copyFiles rest (setDist (<[f := content]> (dist p)) p)
      end
  end.

Section Publish.

(** [JSON.parse] ([None] when it throws) and [JSON.stringify(_, null, 2)]. *)
Variable JSON_parse : string -> option JsonValue.
Variable JSON_stringify : JsonValue -> string.

(** The script, top to bottom; the error is the exception that ends it. *)
Definition publishScript (p : Project) : Project * option JsError :=
  let p := setDist ∅ p in
  let '(p, err) := copyFiles ["README.md"; "LICENSE"] p in
  match err with
  | Some e => (p, Some e)
  | None =>
      match files p !! "package.json" with
      | None => (p, Some (noSuchFile "package.json"))
      | Some text =>
          match JSON_parse text with
          | None => (p, Some (Error "Unexpected token in JSON"))
          | Some packageJson =>
              match trimManifest packageJson with
              | inl e => (p, Some e)
              | inr trimmed =>
                  (setDist (<["package.json" := JSON_stringify trimmed]> (dist p)) p,
                   None)
              end
          end
      end
  end.

End Publish.

(** The names of the fields of an object, in order. *)
Definition objKeys (fields : list (string * JsonValue)) : list string := fields.*1.

(** * Properties *)

(** ** Promises *)

Lemma firstRejection_None_iff {A} (ps : list (Promise A)) :
  firstRejection ps = None <-> rejections ps = [].
Proof.
  induction ps as [|p ps IH]; simpl; [done|].
  destruct p as [t v|t e|]; simpl; try apply IH.
  destruct (firstRejection ps) as [[t' e']|]; [|done].
  destruct (t <=? t')%nat; done.
Qed.

(** A rejection of [Promise.all] is the rejection of one of its members:
    one reason, never a collection. *)
Lemma firstRejection_member {A} (ps : list (Promise A)) t e :
  firstRejection ps = Some (t, e) -> Rejected t e ∈ ps.
Proof.
  induction ps as [|p ps IH]; simpl; [done|].
  destruct p as [t0 v|t0 e0|]; simpl.
  - intros H. right. by apply IH.
  - destruct (firstRejection ps) as [[t' e']|].
    + destruct (t0 <=? t')%nat; intros [= <- <-]; [left | right; by apply IH].
    + intros [= <- <-]. left.
  - intros H. right. by apply IH.
Qed.

Lemma firstRejection_earliest {A} (ps : list (Promise A)) t e t' e' :
  firstRejection ps = Some (t, e) -> Rejected t' e' ∈ ps -> (t <= t')%nat.
Proof.
  revert t e. induction ps as [|p ps IH]; simpl; intros t e Hf Hin.
  - by apply elem_of_nil in Hin.
  - apply elem_of_cons in Hin as [<- | Hin].
    + destruct (firstRejection ps) as [[t1 e1]|].
      * destruct (t' <=? t1)%nat eqn:Hle; injection Hf as <- <-; [lia|].
        apply Nat.leb_gt in Hle. lia.
      * injection Hf as <- <-. lia.
    + destruct p as [t0 v|t0 e0|]; try (by eapply IH).
      destruct (firstRejection ps) as [[t1 e1]|] eqn:Hr.
      * specialize (IH _ _ eq_refl Hin).
        destruct (t0 <=? t1)%nat eqn:Hle; injection Hf as <- <-; [|done].
        apply Nat.leb_le in Hle. lia.
      * apply firstRejection_None_iff in Hr.
        exfalso. clear -Hr Hin. induction ps as [|q ps IH]; [by apply elem_of_nil in Hin|].
        apply elem_of_cons in Hin as [<- | Hin]; [done|].
        destruct q; simpl in Hr; try done; by apply IH.
Qed.

Lemma allFulfilled_values {A} (ps : list (Promise A)) t vs :
  allFulfilled ps = Some (t, vs) ->
  length vs = length ps /\
  Forall2 (fun p v => exists t0, p = Fulfilled t0 v /\ (t0 <= t)%nat) ps vs.
Proof.
  revert t vs. induction ps as [|p ps IH]; simpl; intros t vs H.
  - injection H as <- <-. by split.
  - destruct p as [t0 v|t0 e|]; try done.
    destruct (allFulfilled ps) as [[t1 vs1]|] eqn:Hall; [|done].
    injection H as <- <-. destruct (IH _ _ eq_refl) as [Hlen HF].
    split; [simpl; by f_equal|]. constructor.
    + exists t0. split; [done | lia].
    + eapply Forall2_impl; [exact HF|]. intros p' v' (t2 & -> & Hle).
      exists t2. split; [done | lia].
Qed.

Lemma Promise_all_fulfilled {A} (ps : list (Promise A)) t vs :
  Promise_all ps = Fulfilled t vs ->
  rejections ps = [] /\ length vs = length ps /\
  Forall2 (fun p v => exists t0, p = Fulfilled t0 v /\ (t0 <= t)%nat) ps vs.
Proof.
  unfold Promise_all. destruct (firstRejection ps) as [[t1 e1]|] eqn:Hr; [done|].
  destruct (allFulfilled ps) as [[t2 vs2]|] eqn:Hall; [|done].
  intros [= <- <-]. split; [by apply firstRejection_None_iff|].
  by apply allFulfilled_values.
Qed.

Lemma Promise_all_rejected {A} (ps : list (Promise A)) t e :
  Promise_all ps = Rejected t e <-> firstRejection ps = Some (t, e).
Proof.
  unfold Promise_all. destruct (firstRejection ps) as [[t1 e1]|] eqn:Hr.
  - split; intros [= <- <-]; done.
  - destruct (allFulfilled ps) as [[t2 vs2]|]; split; done.
Qed.

Lemma Promise_all_rejects {A} (ps : list (Promise A)) :
  rejections ps <> [] -> exists t e, Promise_all ps = Rejected t e.
Proof.
  intros H. destruct (firstRejection ps) as [[t e]|] eqn:Hr.
  - exists t, e. by apply Promise_all_rejected.
  - by apply firstRejection_None_iff in Hr.
Qed.

(** ** One run of [startListening] *)

Lemma log_env a w : env (log a w) = env w.
Proof. reflexivity. Qed.

Lemma log_trace a w : trace (log a w) = trace w ++ [a].
Proof. reflexivity. Qed.

Lemma debugLog_env o level args w : env (debugLog o level args w) = env w.
Proof. unfold debugLog. by destruct (debug o). Qed.

Lemma debugLog_trace o level args w :
  trace (debugLog o level args w) = trace w ++ debugActions o level args.
Proof.
  unfold debugLog, debugActions. destruct (debug o); simpl; [done|].
  by rewrite app_nil_r.
Qed.

Lemma newActions_app w w' l : trace w' = trace w ++ l -> newActions w w' = l.
Proof. unfold newActions. intros ->. by rewrite drop_app_length. Qed.

(** Case analysis over everything a run of [startListening] branches on. *)
Ltac listen_cases net s :=
  destruct s as [[? ? ? ? ? [| |[? ? ?]] ? ? ? ? ?] ? ? [?|] ?];
  unfold startListening, startFallback, startMain, bindAndPush, bindCalls,
    fallbackCall, mainCall, emitEvent, relaxesTls, handleOf,
    spdyOptions, greenlockOptions, pushServer, setServers, Promise_all; simpl;
  repeat match goal with
         | |- context [net ?c] => let E := fresh "E" in destruct (net c) eqn:E; simpl
         end;
  repeat match goal with
         | |- context [(?a <=? ?b)%nat] =>
             let L := fresh "L" in destruct (a <=? b)%nat eqn:L; simpl
         end.

(** The same for the dispatch on the SSL mode alone. *)
Ltac main_cases net s :=
  destruct s as [[? ? ? ? ? [| |[? ? ?]] ? ? ? ? ?] ? ? [?|] ?];
  unfold startMain, bindAndPush, relaxesTls, mainCall,
    spdyOptions, greenlockOptions, pushServer, setServers; simpl;
  repeat match goal with
         | |- context [if ?b then _ else _] => destruct b; simpl
         end.

(** The state a run leaves: only the handle list changes, by one pushed
    handle per bind asked for, whatever the binds answer. *)
Lemma startListening_state net s w :
  let s' := (startListening net s w).1.2 in
  _options s' = _options s /\ _app s' = _app s /\
  _portHttp s' = _portHttp s /\ _portHttps s' = _portHttps s /\
  _server s' = _server s ++ (handleOf net <$> bindCalls s).
Proof.
  listen_cases net s;
    rewrite <- ?app_assoc, ?app_nil_r; done.
Qed.

(** The environment a run leaves. *)
Lemma startListening_env net s w :
  env (startListening net s w).2 =
  if relaxesTls (_options s) then <[TLS_FLAG := "0"]> (env w) else env w.
Proof.
  listen_cases net s;
    rewrite ?debugLog_env; simpl;
    repeat match goal with
           | |- context [if ?b then _ else _] => destruct b; simpl
           end;
    rewrite ?debugLog_env; done.
Qed.

(** The actions of a run, in order. *)
Lemma startListening_trace net s w :
  let r := (startListening net s w).1.1 in
  trace (startListening net s w).2 =
  trace w
  ++ debugActions (_options s) "info"
       [VString "Going to listen"; portValue (_portHttps s); portValue (_portHttp s)]
  ++ [Emit "beforeListen"]
  ++ (Listen <$> bindCalls s)
  ++ (if isFulfilled r
      then debugActions (_options s) "info"
             [VString "Listening"; portValue (_portHttps s); portValue (_portHttp s)]
           ++ [Emit "listen"]
      else []).
Proof.
  listen_cases net s;
    repeat match goal with
           | |- context [if ?b then _ else _] => destruct b; simpl
           end;
    rewrite ?debugLog_trace; simpl; rewrite ?debugLog_trace; simpl;
    rewrite <- ?app_assoc; simpl; rewrite ?app_nil_r; done.
Qed.

(** A fulfilled run returns the handle list, and every bind it asked for
    had succeeded by then. *)
Lemma startListening_fulfilled net s w t v :
  (startListening net s w).1.1 = Fulfilled t v ->
  v = _server (startListening net s w).1.2 /\
  mainCall s <> None /\
  Forall (fun c => exists t0, net c = CbOk t0 /\ (t0 <= t)%nat) (bindCalls s).
Proof.
  listen_cases net s; intros H; try discriminate H;
    injection H as <- <-; (split; [done|]); (split; [done|]);
    repeat constructor; eexists; (split; [eassumption | lia]).
Qed.

(** A rejected run carries either the program's own error about the
    missing plaintext port, or the error of one failed bind. *)
Lemma startListening_rejected net s w t e :
  (startListening net s w).1.1 = Rejected t e ->
  (mainCall s = None /\ t = 0%nat /\
   e = Error "Cannot listen on HTTP without HTTP port.") \/
  (exists c, c ∈ bindCalls s /\ net c = CbErr t e).
Proof.
  listen_cases net s; intros H; try discriminate H;
    injection H as <- <-;
    first [ left; done
          | right; eexists; split; [|eassumption]; set_solver ].
Qed.

(** One failed bind is enough for the run to be rejected. *)
Lemma startListening_bind_failure net s w c t e :
  c ∈ bindCalls s -> net c = CbErr t e ->
  isRejected (startListening net s w).1.1 = true.
Proof.
  intros Hin Hc. revert Hin.
  listen_cases net s; try done; intros Hin;
    repeat (apply elem_of_cons in Hin as [-> | Hin]);
    try (by apply elem_of_nil in Hin); congruence.
Qed.

(** If every bind asked for succeeds, and the main listener could be
    started at all, the run is fulfilled. *)
Lemma startListening_success net s w :
  mainCall s <> None ->
  Forall (fun c => cbOk (net c) = true) (bindCalls s) ->
  isFulfilled (startListening net s w).1.1 = true.
Proof.
  listen_cases net s; try done; intros _ HF;
    repeat match goal with
           | H : Forall _ (_ :: _) |- _ => apply Forall_cons in H as [? H]
           end;
    repeat match goal with
           | H : cbOk (net ?c) = true, E : net ?c = _ |- _ => rewrite E in H; simpl in H
           end; done.
Qed.

(** ** One run of [close] *)

Lemma foldl_log {X} (f : X -> Action) (l : list X) (w : World) :
  foldl (fun w x => log (f x) w) w l = {| env := env w; trace := trace w ++ (f <$> l) |}.
Proof.
  revert w. induction l as [|x l IH]; intros w; simpl.
  - rewrite app_nil_r. by destruct w.
  - rewrite IH. simpl. by rewrite <- app_assoc.
Qed.

Section CloseFacts.

Variable closeCb : HttpOrHttpsServer -> Callback.

Lemma closeOne_run now srv w :
  closeOne closeCb now srv w =
  (closePromise closeCb now srv,
   {| env := env w; trace := trace w ++ closeActions now srv |}).
Proof.
  unfold closeOne, closePromise, afterCloseCall, closeActions, destroyLoop.
  destruct (now && destroy srv); simpl.
  - rewrite (foldl_log (fun kc => SocketDestroy kc.1 kc.2)). simpl.
    by rewrite <- app_assoc.
  - done.
Qed.

Lemma closeEach_run now l w :
  closeEach closeCb now l w =
  (closePromise closeCb now <$> l,
   {| env := env w; trace := trace w ++ concat (closeActions now <$> l) |}).
Proof.
  revert w. induction l as [|srv l IH]; intros w; simpl.
  - rewrite app_nil_r. by destruct w.
  - rewrite closeOne_run, IH. simpl. by rewrite <- app_assoc.
Qed.

(** [close] in one equation: ports cleared, list emptied, one promise
    and one group of actions per handle that was in the list. *)
Lemma close_run now s w :
  close closeCb now s w =
  (Promise_all (closePromise closeCb now <$> _server s),
   setServers [] (setPorts None None s),
   {| env := env w; trace := trace w ++ concat (closeActions now <$> _server s) |}).
Proof. unfold close. simpl. by rewrite closeEach_run. Qed.

End CloseFacts.

Lemma closeActions_closes now l :
  filter (fun a => isServerClose a = true) (concat (closeActions now <$> l))
  = ServerClose <$> l.
Proof.
  induction l as [|srv l IH]; csimpl; [done|].
  rewrite filter_cons_True by done. rewrite filter_app, IH. f_equal.
  destruct (now && destroy srv); csimpl; [|done].
  induction (map_to_list (connections srv)) as [|kc m IHm]; csimpl; [done|].
  by rewrite filter_cons_False.
Qed.

Lemma closeActions_graceful l :
  concat (closeActions false <$> l) = ServerClose <$> l.
Proof. induction l as [|srv l IH]; csimpl; [done|]. by rewrite IH. Qed.

Lemma rejections_fmap_closePromise closeCb now l e :
  e ∈ rejections (closePromise closeCb now <$> l) <->
  exists srv t, srv ∈ l /\ closeCb (afterCloseCall now srv) = CbErr t e.
Proof.
  unfold rejections. rewrite list_elem_of_omap. split.
  - intros (p & Hin & Hp). apply list_elem_of_fmap in Hin as (srv & -> & Hin).
    unfold closePromise in Hp.
    destruct (closeCb (afterCloseCall now srv)) as [t|t e0|] eqn:E; simpl in Hp; try done.
    injection Hp as ->. by exists srv, t.
  - intros (srv & t & Hin & E). exists (closePromise closeCb now srv). split.
    + apply list_elem_of_fmap. by exists srv.
    + unfold closePromise. by rewrite E.
Qed.

(** The values of fulfilled promises built from a list are the images of
    the list. *)
Lemma fulfilled_fmap_values {X A} (f : X -> Promise A) (g : X -> A) l vs t :
  (forall x t0 v, f x = Fulfilled t0 v -> v = g x) ->
  Forall2 (fun p v => exists t0, p = Fulfilled t0 v /\ (t0 <= t)%nat) (f <$> l) vs ->
  vs = g <$> l.
Proof.
  intros Hf. revert vs. induction l as [|x l IH]; intros vs H; csimpl in *.
  - by apply Forall2_nil_inv_l in H.
  - apply Forall2_cons_inv_l in H as (v & vs' & (t0 & Hv & _) & H & ->).
    f_equal; [by eapply Hf | by apply IH].
Qed.

Lemma fulfilled_fmap_each {X A} (f : X -> Promise A) l vs t x :
  Forall2 (fun p v => exists t0, p = Fulfilled t0 v /\ (t0 <= t)%nat) (f <$> l) vs ->
  x ∈ l -> exists t0 v, f x = Fulfilled t0 v /\ (t0 <= t)%nat.
Proof.
  revert vs. induction l as [|y l IH]; intros vs H Hin; csimpl in *.
  - by apply elem_of_nil in Hin.
  - apply Forall2_cons_inv_l in H as (v & vs' & (t0 & Hv & Hle) & H & ->).
    apply elem_of_cons in Hin as [-> | Hin]; [by exists t0, v | by eapply IH].
Qed.

Lemma closePromise_value closeCb now srv t v :
  closePromise closeCb now srv = Fulfilled t v ->
  v = stopListening (afterCloseCall now srv).
Proof.
  unfold closePromise. destruct (closeCb _); simpl; intros [=]; done.
Qed.

(** ** Claims about [close] *)

(** C1 (as amended).  For every server object and either value of
    [forced], [close] leaves the handle list empty and both stored ports
    cleared whatever the outcome, and calls close once on every handle
    that was in the list.  When it is fulfilled, its value is the list of
    those handles, in order.  When at least one individual close fails, it
    is rejected with the reason of one of them, the earliest: a single
    error, not a collection of all failures.  On a server without handles
    it is fulfilled with the empty list and does nothing to the world; if
    the server is idle its state is unchanged. *)
Theorem C1_close_drains_first_failure_wins closeCb now s w :
  let ps := closePromise closeCb now <$> _server s in
  let run := close closeCb now s w in
  (_server run.1.2 = [] /\ _portHttp run.1.2 = None /\ _portHttps run.1.2 = None) /\
  filter (fun a => isServerClose a = true) (newActions w run.2)
    = ServerClose <$> _server s /\
  (forall t hs, run.1.1 = Fulfilled t hs ->
     hs = (fun srv => stopListening (afterCloseCall now srv)) <$> _server s) /\
  (rejections ps <> [] ->
     exists t e, run.1.1 = Rejected t e /\ Rejected t e ∈ ps /\
                 forall t' e', Rejected t' e' ∈ ps -> (t <= t')%nat) /\
  (_server s = [] ->
     run.1.1 = Fulfilled 0 [] /\ run.2 = w /\ (isIdle s -> run.1.2 = s)).
Proof.
  intros ps run. subst run. rewrite close_run. simpl. fold ps.
  split; [done|]. split.
  { erewrite newActions_app by reflexivity. apply closeActions_closes. }
  split.
  { intros t hs H. apply Promise_all_fulfilled in H as (_ & _ & HF).
    eapply fulfilled_fmap_values; [|exact HF].
    intros x t0 v. apply closePromise_value. }
  split.
  { intros Hne. destruct (Promise_all_rejects ps Hne) as (t & e & Hr).
    exists t, e. split; [done|].
    apply Promise_all_rejected in Hr. split.
    - by apply firstRejection_member.
    - intros t' e'. by apply firstRejection_earliest with (e := e) (e' := e'). }
  intros Hnil. subst ps. rewrite Hnil. simpl. split; [done|]. split.
  - rewrite app_nil_r. by destruct w.
  - intros (_ & Hh & Hs). destruct s; simpl in *. by subst.
Qed.

Lemma C1_close_drains_first_failure_wins_witness :
  (exists t e,
     (close nodeClose false failedServer world0).1.1 = Rejected t e /\
     Rejected t e ∈ closePromise nodeClose false <$> _server failedServer) /\
  isIdle manualServer /\
  (close nodeClose false manualServer world0).1.1 = Fulfilled 0 [] /\
  (close nodeClose false manualServer world0).1.2 = manualServer.
Proof.
  destruct (C1_close_drains_first_failure_wins nodeClose false failedServer world0)
    as (_ & _ & _ & Hfail & _).
  destruct (C1_close_drains_first_failure_wins nodeClose false manualServer world0)
    as (_ & _ & _ & _ & Hidle).
  assert (isIdle manualServer) as Hi by (by repeat split).
  split; [|split; [exact Hi|]].
  - destruct Hfail as (t & e & Hr & Hin & _).
    + vm_compute. discriminate.
    + exists t, e. by split.
  - destruct (Hidle eq_refl) as (Hr & _ & Hs). split; [exact Hr | exact (Hs Hi)].
Defined.

(** The two situations called idle: a server just constructed, and a
    server after [close]. *)
Lemma idle_after_new_or_close :
  (forall o, isIdle (freshServer o)) /\
  (forall closeCb now s w, isIdle (close closeCb now s w).1.2).
Proof.
  split; [done|]. intros closeCb now s w. by rewrite close_run.
Qed.

(** C1, as stated, fails: on a server holding two handles whose closes
    both fail, the rejection of [close] is the plain error of the first
    failed close and does not aggregate the two failures. *)
Lemma C1_counterexample_no_aggregation :
  let failures := rejections (closePromise nodeClose false <$> _server failedServer) in
  failures = [Error "Server is not running."; Error "Server is not running."] /\
  (close nodeClose false failedServer world0).1.1
    = Rejected 0 (Error "Server is not running.") /\
  ~ aggregates (close nodeClose false failedServer world0).1.1 failures.
Proof.
  split; [by vm_compute|]. split; [by vm_compute|].
  intros (t & es & H & _). vm_compute in H. discriminate H.
Qed.

(** ** The connection registry *)

Lemma lastEnd_bound l t :
  lastEnd l = Some t ->
  forall c, c ∈ l -> exists te, socketEnd c = Some te /\ (te <= t)%nat.
Proof.
  revert t. induction l as [|c0 l IH]; simpl; intros t H c Hin.
  - by apply elem_of_nil in Hin.
  - destruct (socketEnd c0) as [t0|] eqn:E0; [|done].
    destruct (lastEnd l) as [t1|] eqn:E1; [|done].
    injection H as <-. apply elem_of_cons in Hin as [-> | Hin].
    + exists t0. split; [done | lia].
    + destruct (IH _ eq_refl c Hin) as (te & Hte & Hle).
      exists te. split; [done | lia].
Qed.

Lemma lastEnd_never l c :
  c ∈ l -> socketEnd c = None -> lastEnd l = None.
Proof.
  intros Hin Hc. destruct (lastEnd l) as [t|] eqn:E; [|done].
  destruct (lastEnd_bound _ _ E c Hin) as (te & Hte & _). congruence.
Qed.

Lemma lastEnd_destroyed l :
  Forall (fun c => destroyed c = true) l -> lastEnd l = Some 0%nat.
Proof.
  induction 1 as [|c l Hc _ IH]; simpl; [done|].
  unfold socketEnd. by rewrite Hc, IH.
Qed.

(** In the registry of a server whose [destroy] ran, every socket is
    destroyed. *)
Lemma destroyed_registry (m : gmap string Socket) :
  Forall (fun c => destroyed c = true) (map_to_list (socketDestroy <$> m)).*2.
Proof.
  apply Forall_forall. intros c Hin.
  apply list_elem_of_fmap in Hin as ([k c'] & -> & Hin).
  apply elem_of_map_to_list in Hin. rewrite lookup_fmap in Hin.
  destruct (m !! k); simpl in Hin; [|done]. by injection Hin as <-.
Qed.

Lemma deliver_step_connections (l : list (string * Socket)) srv :
  Forall (fun kc => destroyed kc.2 = true) l ->
  connections
    (foldr (fun kc srv => if destroyed kc.2 then onSocketClose kc.1 srv else srv) srv l)
  = foldr (fun kc m => delete kc.1 m) (connections srv) l.
Proof.
  induction 1 as [|kc l Hd _ IH]; simpl; [done|].
  rewrite Hd. simpl. by rewrite IH.
Qed.

Lemma foldr_delete_lookup (l : list (string * Socket)) (m : gmap string Socket) k :
  foldr (fun kc m => delete kc.1 m) m l !! k
  = if decide (k ∈ l.*1) then None else m !! k.
Proof.
  induction l as [|[k0 c0] l IH].
  - done.
  - rewrite fmap_cons. cbn [foldr fst]. destruct (decide (k0 = k)) as [->|Hne].
    + rewrite lookup_delete_eq. rewrite decide_True; [done | left].
    + rewrite lookup_delete_ne by done. rewrite IH.
      destruct (decide (k ∈ l.*1)) as [Hin|Hnot].
      * rewrite decide_True; [done | by right].
      * rewrite decide_False; [done|]. intros [?|?]%elem_of_cons; done.
Qed.

(** Once a registry holds destroyed sockets only, delivering their
    ['close'] events empties it. *)
Lemma deliverCloseEvents_empties srv :
  (forall k c, connections srv !! k = Some c -> destroyed c = true) ->
  connections (deliverCloseEvents srv) = ∅.
Proof.
  intros Hall. unfold deliverCloseEvents. rewrite deliver_step_connections.
  - apply map_eq. intros k. rewrite lookup_empty, foldr_delete_lookup.
    destruct (decide _) as [|Hnot]; [done|].
    destruct (connections srv !! k) as [c|] eqn:E; [|done].
    exfalso. apply Hnot. apply list_elem_of_fmap. exists (k, c). split; [done|].
    by apply elem_of_map_to_list.
  - apply Forall_forall. intros [k c] Hin. apply elem_of_map_to_list in Hin.
    simpl. by eapply Hall.
Qed.

(** The registry follows the sockets: a connection is registered under
    its key when accepted and is gone once its ['close'] handler ran. *)
Lemma registry_accept_close conn srv :
  connections (onConnection conn srv) !! connKey conn = Some conn /\
  connections (onSocketClose (connKey conn) (onConnection conn srv)) !! connKey conn = None.
Proof.
  simpl. split; [apply lookup_insert_eq | apply lookup_delete_eq].
Qed.

Lemma newActions_run w e l :
  newActions w {| env := e; trace := trace w ++ l |} = l.
Proof. by apply newActions_app. Qed.

Lemma elem_of_concat {X} (a : X) (ls : list (list X)) :
  a ∈ concat ls <-> exists l, l ∈ ls /\ a ∈ l.
Proof.
  induction ls as [|l0 ls IH]; simpl.
  - split; [by intros ?%elem_of_nil | by intros (l & ?%elem_of_nil & _)].
  - rewrite elem_of_app, IH. split.
    + intros [H | (l & Hl & Ha)]; [exists l0 | exists l]; split; try done; by constructor.
    + intros (l & [-> | Hl]%elem_of_cons & Ha); [by left | right; by exists l].
Qed.

Lemma count_app f l1 l2 : count f (l1 ++ l2) = (count f l1 + count f l2)%nat.
Proof. unfold count. by rewrite filter_app, length_app. Qed.

Lemma count_none f l : Forall (fun a => f a = false) l -> count f l = 0%nat.
Proof.
  unfold count. induction 1 as [|a l Ha _ IH]; [done|].
  rewrite filter_cons_False; [done|]. by rewrite Ha.
Qed.

Lemma count_all f l : Forall (fun a => f a = true) l -> count f l = length l.
Proof.
  unfold count. induction 1 as [|a l Ha _ IH]; [done|].
  rewrite filter_cons_True by done. simpl. by rewrite IH.
Qed.

Lemma all_fulfilled_all {A} (ps : list (Promise A)) :
  Forall (fun p => isFulfilled p = true) ps ->
  exists t vs, Promise_all ps = Fulfilled t vs.
Proof.
  intros H. unfold Promise_all.
  assert (firstRejection ps = None) as ->.
  { induction H as [|p ps Hp _ IH]; simpl; [done|]. destruct p; try done. }
  assert (exists tv, allFulfilled ps = Some tv) as [[t vs] ->]; [|by eauto].
  induction H as [|p ps Hp _ [[t vs] IH]]; simpl; [by eauto|].
  destruct p; try done. rewrite IH. by eauto.
Qed.

Lemma not_fulfilled_member {A} (ps : list (Promise A)) p :
  p ∈ ps -> isFulfilled p = false -> isFulfilled (Promise_all ps) = false.
Proof.
  intros Hin Hp. destruct (Promise_all ps) as [t vs| |] eqn:E; try done.
  apply Promise_all_fulfilled in E as (_ & _ & HF).
  apply list_elem_of_lookup in Hin as [i Hi].
  destruct (Forall2_lookup_l _ _ _ _ _ HF Hi) as (v & _ & t0 & -> & _). done.
Qed.

(** Forced close of a listening server with [destroy]: node calls back at
    once, every socket of the registry having been destroyed. *)
Lemma closePromise_forced srv :
  destroy srv = true -> listening srv = true ->
  closePromise nodeClose true srv
  = Fulfilled 0 (stopListening (setConnections (socketDestroy <$> connections srv) srv)).
Proof.
  intros Hd Hl. unfold closePromise, afterCloseCall, nodeClose. rewrite Hd. simpl.
  rewrite Hl. by rewrite lastEnd_destroyed by apply destroyed_registry.
Qed.

(** C6.  With node's [server.close], on a server whose handles all carry
    [destroy] (as every handle [listen] pushes does): [close(true)]
    destroys every socket tracked in any handle's registry; if all handles
    were listening it is fulfilled with as many handles as there were
    listeners, and in each of them the registry is empty once the sockets'
    close events are delivered.  [close(false)] destroys no socket; when it
    is fulfilled at tick [t] every connection that was open had ended by
    itself by [t]; and it is not fulfilled at all while a tracked
    connection never ends. *)
Theorem C6_forced_destroys_graceful_waits s w :
  Forall (fun srv => destroy srv = true) (_server s) ->
  let forced := close nodeClose true s w in
  let graceful := close nodeClose false s w in
  (forall srv k c, srv ∈ _server s -> connections srv !! k = Some c ->
     SocketDestroy k c ∈ newActions w forced.2) /\
  (Forall (fun srv => listening srv = true) (_server s) ->
   exists t hs, forced.1.1 = Fulfilled t hs /\ length hs = length (_server s) /\
     Forall (fun h => connections (deliverCloseEvents h) = ∅) hs) /\
  count isSocketDestroy (newActions w graceful.2) = 0%nat /\
  (forall t hs, graceful.1.1 = Fulfilled t hs ->
     length hs = length (_server s) /\
     forall srv k c, srv ∈ _server s -> connections srv !! k = Some c ->
       destroyed c = false ->
       exists te, endsAt c = Some te /\ (te <= t)%nat) /\
  (forall srv k c, srv ∈ _server s -> connections srv !! k = Some c ->
     destroyed c = false -> endsAt c = None ->
     isFulfilled graceful.1.1 = false).
Proof.
  intros Hdestroy forced graceful. subst forced graceful.
  rewrite !close_run. simpl.
  rewrite !newActions_run.
  split; [|split; [|split; [|split]]].
  - intros srv k c Hin Hk. apply elem_of_concat.
    exists (closeActions true srv). split.
    + apply list_elem_of_fmap. by exists srv.
    + unfold closeActions. rewrite Forall_forall in Hdestroy.
      rewrite (Hdestroy srv Hin). simpl. right.
      apply list_elem_of_fmap. exists (k, c). split; [done|].
      by apply elem_of_map_to_list.
  - intros Hlisten.
    assert (Forall (fun p => isFulfilled p = true)
                   (closePromise nodeClose true <$> _server s)) as Hall.
    { apply Forall_fmap, Forall_forall. intros srv Hin. simpl.
      rewrite Forall_forall in Hdestroy, Hlisten.
      by rewrite closePromise_forced by auto. }
    destruct (all_fulfilled_all _ Hall) as (t & hs & Hr).
    exists t, hs. split; [done|].
    apply Promise_all_fulfilled in Hr as (_ & Hlen & HF).
    rewrite length_fmap in Hlen. split; [done|].
    erewrite (fulfilled_fmap_values _ _ _ hs); [|apply closePromise_value|exact HF].
    apply Forall_fmap, Forall_forall. intros srv Hin. simpl.
    apply deliverCloseEvents_empties. intros k c.
    unfold afterCloseCall. rewrite Forall_forall in Hdestroy.
    rewrite (Hdestroy srv Hin). simpl. rewrite lookup_fmap.
    destruct (connections srv !! k); simpl; [|done]. by intros [= <-].
  - rewrite closeActions_graceful. apply count_none.
    by apply Forall_fmap, Forall_forall.
  - intros t hs Hr. apply Promise_all_fulfilled in Hr as (_ & Hlen & HF).
    rewrite length_fmap in Hlen. split; [done|].
    intros srv k c Hin Hk Hopen.
    destruct (fulfilled_fmap_each _ _ _ _ srv HF Hin) as (t0 & v & Hp & Hle).
    unfold closePromise, afterCloseCall, nodeClose in Hp. simpl in Hp.
    destruct (listening srv); [|done].
    destruct (lastEnd _) as [tl|] eqn:El; [|done]. injection Hp as <- _.
    destruct (lastEnd_bound _ _ El c) as (te & Hte & Hle').
    { apply list_elem_of_fmap. exists (k, c). split; [done|].
      by apply elem_of_map_to_list. }
    unfold socketEnd in Hte. rewrite Hopen in Hte.
    exists te. split; [done | lia].
  - intros srv k c Hin Hk Hopen Hnever.
    apply not_fulfilled_member with (p := closePromise nodeClose false srv).
    { apply list_elem_of_fmap. by exists srv. }
    unfold closePromise, afterCloseCall, nodeClose. simpl.
    destruct (listening srv); [|done].
    rewrite (lastEnd_never _ c); [done| |].
    + apply list_elem_of_fmap. exists (k, c). split; [done|].
      by apply elem_of_map_to_list.
    + unfold socketEnd. by rewrite Hopen.
Qed.

Lemma C6_forced_destroys_graceful_waits_witness :
  Forall (fun srv => destroy srv = true) (_server busyServer) /\
  (exists t hs, (close nodeClose true busyServer world0).1.1 = Fulfilled t hs /\
                length hs = 2%nat) /\
  isFulfilled (close nodeClose false busyServer world0).1.1 = false.
Proof.
  assert (Forall (fun srv => destroy srv = true) (_server busyServer)) as Hd
    by (vm_compute; repeat constructor).
  assert (Forall (fun srv => listening srv = true) (_server busyServer)) as Hl
    by (vm_compute; repeat constructor).
  destruct (C6_forced_destroys_graceful_waits busyServer world0 Hd)
    as (_ & Hforced & _ & _ & Hnever).
  split; [exact Hd|]. split.
  - destruct (Hforced Hl) as (t & hs & Hr & Hlen & _). exists t, hs.
    split; [exact Hr|]. rewrite Hlen. by vm_compute.
  - apply (Hnever (onConnection (peer "10.0.0.1" 50001 (Some 7%nat))
                     (onConnection (peer "10.0.0.2" 50002 None)
                        (handleOf allBind (FallbackListen 8080))))
                  (connKey (peer "10.0.0.2" 50002 None))
                  (peer "10.0.0.2" 50002 None)).
    + vm_compute. left.
    + by vm_compute.
    + reflexivity.
    + reflexivity.
Defined.

(** Forced close of [busyServer], evaluated: both handles come back, and
    the four tracked sockets were destroyed. *)
Example close_forced_busy :
  let run := close nodeClose true busyServer world0 in
  (exists hs, run.1.1 = Fulfilled 0 hs /\ length hs = 2%nat) /\
  count isSocketDestroy (trace run.2) = 4%nat /\
  count isServerClose (trace run.2) = 2%nat.
Proof. vm_compute. split; [eexists; split; reflexivity|]. by split. Qed.

(** ** Counting actions of a run of [listen] *)

Lemma count_debugActions f o level args :
  (forall a, isDebug a = true -> f a = false) ->
  count f (debugActions o level args) = 0%nat.
Proof.
  intros Hf. apply count_none. unfold debugActions.
  destruct (debug o) as [[|id]|]; repeat constructor; by apply Hf.
Qed.

Lemma count_listens_fmap l : count isListen (Listen <$> l) = length l.
Proof. rewrite count_all; [by rewrite length_fmap|]. by apply Forall_fmap, Forall_forall. Qed.

Lemma count_emit_fmap e l : count (isEmit e) (Listen <$> l) = 0%nat.
Proof. apply count_none. by apply Forall_fmap, Forall_forall. Qed.

Lemma count_close_fmap l : count isServerClose (Listen <$> l) = 0%nat.
Proof. apply count_none. by apply Forall_fmap, Forall_forall. Qed.

Lemma count_destroy_fmap l : count isSocketDestroy (Listen <$> l) = 0%nat.
Proof. apply count_none. by apply Forall_fmap, Forall_forall. Qed.

Lemma isDebug_not_listen a : isDebug a = true -> isListen a = false.
Proof. by destruct a. Qed.

Lemma isDebug_not_emit e a : isDebug a = true -> isEmit e a = false.
Proof. by destruct a. Qed.

Lemma isDebug_not_close a : isDebug a = true -> isServerClose a = false.
Proof. by destruct a. Qed.

Lemma isDebug_not_destroy a : isDebug a = true -> isSocketDestroy a = false.
Proof. by destruct a. Qed.

(** The actions of [listen], by [startListening_trace]. *)
Lemma listen_actions net https http s w :
  let run := listen net https http s w in
  newActions w run.2 =
  debugActions (_options s) "info"
    [VString "Going to listen"; VNumber https; portValue http]
  ++ [Emit "beforeListen"]
  ++ (Listen <$> listenCalls https http s)
  ++ (if isFulfilled run.1.1
      then debugActions (_options s) "info"
             [VString "Listening"; VNumber https; portValue http]
           ++ [Emit "listen"]
      else []).
Proof.
  simpl. unfold listen. apply newActions_app.
  by rewrite startListening_trace.
Qed.

Lemma listen_fulfilled_iff net https http s w :
  isFulfilled (listen net https http s w).1.1 = true <->
  mainCall (setPorts http (Some https) s) <> None /\
  Forall (fun c => cbOk (net c) = true) (listenCalls https http s).
Proof.
  unfold listen, listenCalls. split.
  - destruct (startListening _ _ _).1.1 as [t v| |] eqn:E; try done. intros _.
    apply startListening_fulfilled in E as (_ & Hm & HF). split; [done|].
    eapply Forall_impl; [exact HF|]. by intros c (t0 & -> & _).
  - intros [Hm HF]. by apply startListening_success.
Qed.

(** How often [listen] is emitted by a call of [listen]. *)
Lemma listen_event_count net https http s w :
  let run := listen net https http s w in
  count (isEmit "listen") (newActions w run.2)
  = (if isFulfilled run.1.1 then 1 else 0)%nat.
Proof.
  simpl. rewrite listen_actions.
  rewrite !count_app, count_emit_fmap.
  rewrite count_debugActions by apply isDebug_not_emit.
  destruct (isFulfilled _); [|done].
  rewrite count_app, count_debugActions by apply isDebug_not_emit. done.
Qed.

(** ** Claims about [listen] *)

(** C2.  In every call of [listen], [beforeListen] is emitted exactly once
    and before the first bind is asked for; all binds come next; [listen]
    is emitted exactly once, as the last action, when the call is
    fulfilled, and not at all otherwise.  The call is fulfilled exactly
    when the main listener could be started and every bind asked for
    succeeded; so [listen] is never emitted when a bind fails. *)
Theorem C2_lifecycle_events_order net https http s w :
  let run := listen net https http s w in
  let acts := newActions w run.2 in
  let binds := listenCalls https http s in
  (exists pre post,
     acts = pre ++ [Emit "beforeListen"] ++ (Listen <$> binds) ++ post /\
     count isListen pre = 0%nat /\ count isListen post = 0%nat /\
     (isFulfilled run.1.1 = true -> last post = Some (Emit "listen"))) /\
  count (isEmit "beforeListen") acts = 1%nat /\
  count (isEmit "listen") acts = (if isFulfilled run.1.1 then 1 else 0)%nat /\
  (isFulfilled run.1.1 = true <->
   mainCall (setPorts http (Some https) s) <> None /\
   Forall (fun c => cbOk (net c) = true) binds) /\
  (forall c, c ∈ binds -> cbOk (net c) = false ->
     count (isEmit "listen") acts = 0%nat).
Proof.
  intros run acts binds.
  assert (acts =
          debugActions (_options s) "info"
            [VString "Going to listen"; VNumber https; portValue http]
          ++ [Emit "beforeListen"] ++ (Listen <$> binds)
          ++ (if isFulfilled run.1.1
              then debugActions (_options s) "info"
                     [VString "Listening"; VNumber https; portValue http]
                   ++ [Emit "listen"]
              else [])) as Hacts by apply listen_actions.
  clearbody acts. subst acts.
  assert (forall pre, count (isEmit "listen")
            (pre ++ [Emit "beforeListen"] ++ (Listen <$> binds)
             ++ (if isFulfilled run.1.1
                 then debugActions (_options s) "info"
                        [VString "Listening"; VNumber https; portValue http]
                      ++ [Emit "listen"]
                 else []))
          = (count (isEmit "listen") pre
             + (if isFulfilled run.1.1 then 1 else 0))%nat) as Hlisten.
  { intros pre. rewrite !count_app, count_emit_fmap.
    destruct (isFulfilled run.1.1); [|done].
    rewrite count_app, count_debugActions by apply isDebug_not_emit. done. }
  rewrite Hlisten, count_debugActions by apply isDebug_not_emit.
  split; [|split; [|split; [|split]]].
  - eexists _, _. split; [reflexivity|]. split; [|split].
    + apply count_debugActions, isDebug_not_listen.
    + destruct (isFulfilled run.1.1); [|done].
      rewrite count_app, count_debugActions by apply isDebug_not_listen. done.
    + intros ->. by rewrite last_snoc.
  - rewrite !count_app, count_emit_fmap.
    rewrite count_debugActions by apply isDebug_not_emit.
    destruct (isFulfilled run.1.1); [|done].
    rewrite count_app, count_debugActions by apply isDebug_not_emit. done.
  - done.
  - apply listen_fulfilled_iff.
  - intros c Hin Hfail.
    destruct (isFulfilled run.1.1) eqn:E; [|done].
    apply listen_fulfilled_iff in E as [_ HF].
    rewrite Forall_forall in HF. specialize (HF c Hin). congruence.
Qed.

Lemma C2_lifecycle_events_order_witness :
  count (isEmit "listen")
        (newActions world0 (listen onlyFallbackBinds 8443 (Some 8080%Z)
                              manualServer world0).2) = 0%nat.
Proof.
  destruct (C2_lifecycle_events_order onlyFallbackBinds 8443 (Some 8080%Z)
              manualServer world0) as (_ & _ & _ & _ & H).
  apply (H (SpdyListen (spdyOptions manualServer) (Some 8443%Z))).
  - vm_compute. right. left.
  - reflexivity.
Defined.

Lemma listen_state net https http s w :
  let s' := (listen net https http s w).1.2 in
  _options s' = _options s /\ _app s' = _app s /\
  _portHttp s' = http /\ _portHttps s' = Some https /\
  _server s' = _server s ++ (handleOf net <$> listenCalls https http s).
Proof. apply (startListening_state net (setPorts http (Some https) s) w). Qed.

(** Every handle [listen] pushes went through [enableDestroy]. *)
Lemma listen_handles_have_destroy net https http s w :
  Forall (fun srv => destroy srv = true) (_server s) ->
  Forall (fun srv => destroy srv = true) (_server (listen net https http s w).1.2).
Proof.
  intros H. destruct (listen_state net https http s w) as (_ & _ & _ & _ & ->).
  apply Forall_app. split; [done|]. by apply Forall_fmap, Forall_forall.
Qed.

Lemma listen_trace_extends net https http s w :
  let run := listen net https http s w in
  trace run.2 = trace w ++ newActions w run.2.
Proof.
  simpl. rewrite listen_actions. unfold listen. by rewrite startListening_trace.
Qed.

Lemma bindCalls_ext s1 s2 :
  _options s1 = _options s2 -> _portHttp s1 = _portHttp s2 ->
  _portHttps s1 = _portHttps s2 -> bindCalls s1 = bindCalls s2.
Proof.
  intros Ho Hh Hs. unfold bindCalls, fallbackCall, mainCall, greenlockOptions, spdyOptions.
  by rewrite Ho, Hh, Hs.
Qed.

(** C5.  On a server in plaintext mode ([ssl: "none"]): [listen] with a
    plaintext port asks for exactly one bind, on that port, and pushes
    exactly one handle for it, so that an idle server holds exactly that
    one handle afterwards, returned when the bind succeeds; [listen] with
    a null plaintext port is rejected with the program's own
    configuration error, asks for no bind and pushes no handle. *)
Theorem C5_plain_mode_one_listener net https s w :
  ssl (_options s) = SslNone ->
  (forall http,
     let run := listen net https (Some http) s w in
     let h := handleOf net (AppListen http) in
     listenCalls https (Some http) s = [AppListen http] /\
     portsOf (origin h) = [http] /\
     _server run.1.2 = _server s ++ [h] /\
     (_server s = [] -> _server run.1.2 = [h]) /\
     (forall t, net (AppListen http) = CbOk t ->
        listening h = true /\
        exists t', run.1.1 = Fulfilled t' (_server run.1.2))) /\
  (let run := listen net https None s w in
   run.1.1 = Rejected 0 (Error "Cannot listen on HTTP without HTTP port.") /\
   isConfigurationError (Error "Cannot listen on HTTP without HTTP port.") = true /\
   _server run.1.2 = _server s /\
   count isListen (newActions w run.2) = 0%nat).
Proof.
  intros Hssl. split.
  - intros http run h.
    assert (listenCalls https (Some http) s = [AppListen http]) as Hcalls.
    { unfold listenCalls, bindCalls, fallbackCall, mainCall. simpl. by rewrite Hssl. }
    destruct (listen_state net https (Some http) s w) as (_ & _ & _ & _ & Hsrv).
    fold run in Hsrv. rewrite Hcalls in Hsrv. simpl in Hsrv.
    split; [done|]. split; [done|]. split; [done|]. split.
    + intros Hnil. by rewrite Hsrv, Hnil.
    + intros t Hok. split; [subst h; simpl; by rewrite Hok|].
      assert (isFulfilled run.1.1 = true) as Hful.
      { apply listen_fulfilled_iff. split.
        - unfold mainCall. simpl. by rewrite Hssl.
        - rewrite Hcalls. repeat constructor. by rewrite Hok. }
      destruct run.1.1 as [t' v| |] eqn:E; try done.
      exists t'. f_equal. subst run. unfold listen in *.
      by apply startListening_fulfilled in E as (-> & _).
  - intros run.
    assert (listenCalls https None s = []) as Hcalls.
    { unfold listenCalls, bindCalls, fallbackCall, mainCall. simpl. by rewrite Hssl. }
    destruct (listen_state net https None s w) as (_ & _ & _ & _ & Hsrv).
    fold run in Hsrv. rewrite Hcalls, app_nil_r in Hsrv.
    split; [|split; [done|split; [done|]]].
    + subst run. clear Hsrv Hcalls. revert Hssl. unfold listen.
      listen_cases net s; done.
    + subst run. rewrite listen_actions, Hcalls.
      rewrite !count_app, count_debugActions by apply isDebug_not_listen.
      destruct (isFulfilled _); [|done].
      rewrite count_app, count_debugActions by apply isDebug_not_listen. done.
Qed.

Lemma C5_plain_mode_one_listener_witness :
  _server (listen allBind 443 (Some 8080%Z) plainServer world0).1.2
    = [handleOf allBind (AppListen 8080)] /\
  (listen allBind 443 None plainServer world0).1.1
    = Rejected 0 (Error "Cannot listen on HTTP without HTTP port.").
Proof.
  destruct (C5_plain_mode_one_listener allBind 443 plainServer world0 eq_refl)
    as [Hsome Hnull].
  split.
  - destruct (Hsome 8080%Z) as (_ & _ & _ & H & _). apply H. reflexivity.
  - apply Hnull.
Defined.

Lemma listen_no_close_actions net https http s w :
  let acts := newActions w (listen net https http s w).2 in
  count isServerClose acts = 0%nat /\ count isSocketDestroy acts = 0%nat.
Proof.
  simpl. rewrite listen_actions.
  rewrite !count_app, count_close_fmap, count_destroy_fmap.
  rewrite !count_debugActions
    by first [apply isDebug_not_close | apply isDebug_not_destroy].
  destruct (isFulfilled _); [|done].
  rewrite !count_app, !count_debugActions
    by first [apply isDebug_not_close | apply isDebug_not_destroy].
  done.
Qed.

(** C7.  In manual-certificate mode with a plaintext port, [listen] asks
    for two binds.  The runtime calls the callback of a bind only when the
    server listens, never with an error; a bind that fails is left
    unanswered.  Then [listen] does not fail: it stays pending for ever,
    the rejection the callback was written for is never reached.  Both
    handles are in the handle list all the same, so a listener whose bind
    succeeded is there and listening; the call closes no server and
    destroys no socket, nothing is rolled back; and the [listen] event is
    not emitted. *)
Theorem C7_failed_bind_leaves_listen_pending net https http s w m :
  ssl (_options s) = SslManual m ->
  let cf := FallbackListen http in
  let cm := SpdyListen (spdyOptions s) (Some https) in
  (forall c t e, net c <> CbErr t e) ->
  (exists c, c ∈ [cf; cm] /\ net c = CbNever) ->
  let run := listen net https (Some http) s w in
  listenCalls https (Some http) s = [cf; cm] /\
  run.1.1 = Pending /\
  _server run.1.2 = _server s ++ [handleOf net cf; handleOf net cm] /\
  (forall c, c ∈ [cf; cm] -> cbOk (net c) = true ->
     handleOf net c ∈ _server run.1.2 /\ listening (handleOf net c) = true) /\
  count isServerClose (newActions w run.2) = 0%nat /\
  count isSocketDestroy (newActions w run.2) = 0%nat /\
  count (isEmit "listen") (newActions w run.2) = 0%nat.
Proof.
  intros Hssl cf cm Hnoerr (c0 & Hin0 & Hnever0) run.
  assert (listenCalls https (Some http) s = [cf; cm]) as Hcalls.
  { unfold listenCalls, bindCalls, fallbackCall, mainCall. simpl. by rewrite Hssl. }
  destruct (listen_state net https (Some http) s w) as (_ & _ & _ & _ & Hsrv).
  fold run in Hsrv. rewrite Hcalls in Hsrv. simpl in Hsrv.
  assert (run.1.1 = Pending) as Hpending.
  { destruct run.1.1 as [t v|t e|] eqn:E; [| |done]; exfalso.
    - assert (isFulfilled run.1.1 = true) as Hful by (by rewrite E).
      subst run. apply listen_fulfilled_iff in Hful as [_ HF].
      rewrite Hcalls, Forall_forall in HF. specialize (HF c0 Hin0).
      by rewrite Hnever0 in HF.
    - subst run. unfold listen in E.
      apply startListening_rejected in E as [(Hm & _) | (c & _ & Hc)].
      + unfold mainCall in Hm. simpl in Hm. by rewrite Hssl in Hm.
      + by apply (Hnoerr c t e). }
  split; [done|]. split; [done|]. split; [done|]. split; [|split; [|split]].
  - intros c Hin Hok. split; [|done].
    rewrite Hsrv. apply elem_of_app. right.
    apply elem_of_cons in Hin as [-> | Hin]; [left|].
    apply elem_of_cons in Hin as [-> | Hin]; [right; left|].
    by apply elem_of_nil in Hin.
  - apply listen_no_close_actions.
  - apply listen_no_close_actions.
  - subst run. rewrite listen_event_count.
    by destruct (listen net https (Some http) s w).1.1.
Qed.

Lemma C7_failed_bind_leaves_listen_pending_witness :
  let run := listen securedPortTaken 8443 (Some 8080%Z) manualServer world0 in
  run.1.1 = Pending /\
  handleOf securedPortTaken (FallbackListen 8080) ∈ _server run.1.2 /\
  listening (handleOf securedPortTaken (FallbackListen 8080)) = true /\
  count isServerClose (newActions world0 run.2) = 0%nat.
Proof.
  assert (forall c t e, securedPortTaken c <> CbErr t e) as Hnoerr
    by (by intros [| | |] t e).
  assert (exists c,
            c ∈ [FallbackListen 8080; SpdyListen (spdyOptions manualServer) (Some 8443%Z)]
            /\ securedPortTaken c = CbNever) as Hfail.
  { exists (SpdyListen (spdyOptions manualServer) (Some 8443%Z)).
    split; [right; left | reflexivity]. }
  destruct (C7_failed_bind_leaves_listen_pending securedPortTaken 8443 8080
              manualServer world0
              {| key := "KEY"; cert := "CERT"; allowUnsigned := false |}
              eq_refl Hnoerr Hfail) as (_ & Hp & _ & Hkept & Hclose & _).
  destruct (Hkept (FallbackListen 8080)) as [Hin Hl]; [left | reflexivity |].
  split; [exact Hp|]. split; [exact Hin|]. split; [exact Hl | exact Hclose].
Defined.

(** C10.  A second [listen] without a [close] in between appends the
    handles of its binds to the handle list: after both calls the list is
    the old list, the handles of the first call and the handles of the
    second, and that is the list the second call returns when fulfilled.
    Neither call closes a server.  A following [close] calls close on
    every handle of that list and leaves the list empty. *)
Theorem C10_second_listen_appends net1 net2 https1 http1 https2 http2 closeCb now s w :
  let run1 := listen net1 https1 http1 s w in
  let run2 := listen net2 https2 http2 run1.1.2 run1.2 in
  let run3 := close closeCb now run2.1.2 run2.2 in
  _server run2.1.2
    = _server s ++ (handleOf net1 <$> listenCalls https1 http1 s)
                ++ (handleOf net2 <$> listenCalls https2 http2 s) /\
  (forall t v, run2.1.1 = Fulfilled t v -> v = _server run2.1.2) /\
  count isServerClose (newActions w run1.2 ++ newActions run1.2 run2.2) = 0%nat /\
  filter (fun a => isServerClose a = true) (newActions run2.2 run3.2)
    = ServerClose <$> _server run2.1.2 /\
  _server run3.1.2 = [].
Proof.
  intros run1 run2 run3.
  destruct (listen_state net1 https1 http1 s w) as (Ho1 & _ & _ & _ & Hs1).
  destruct (listen_state net2 https2 http2 run1.1.2 run1.2) as (_ & _ & _ & _ & Hs2).
  fold run1 in Ho1, Hs1, Hs2. fold run2 in Hs2.
  split; [|split; [|split; [|split]]].
  - rewrite Hs2, Hs1, <- app_assoc. do 3 f_equal.
    by apply bindCalls_ext.
  - intros t v E. subst run2. unfold listen in *.
    by apply startListening_fulfilled in E as (-> & _).
  - rewrite count_app.
    pose proof (listen_no_close_actions net1 https1 http1 s w) as [H1 _].
    pose proof (listen_no_close_actions net2 https2 http2 run1.1.2 run1.2) as [H2 _].
    fold run1 in H1. fold run2 in H2. by rewrite H1, H2.
  - subst run3. rewrite close_run. simpl. rewrite newActions_run.
    apply closeActions_closes.
  - subst run3. by rewrite close_run.
Qed.

(** Two calls of [listen(8443, 8080)] in manual-certificate mode leave
    four handles, and the following [close] returns all four. *)
Example double_listen_four_handles :
  let run1 := listen allBind 8443 (Some 8080%Z) manualServer world0 in
  let run2 := listen allBind 8443 (Some 8080%Z) run1.1.2 run1.2 in
  let run3 := close nodeClose false run2.1.2 run2.2 in
  length (_server run2.1.2) = 4%nat /\
  (exists hs, run3.1.1 = Fulfilled 0 hs /\ length hs = 4%nat) /\
  count isServerClose (newActions run2.2 run3.2) = 4%nat.
Proof. vm_compute. split; [done|]. split; [|done]. eexists. by split. Qed.

(** C3.  On an idle server in manual-certificate mode, a [listen] whose
    binds succeed leaves exactly two handles, the fallback on the
    plaintext port and the main listener on the secured port, both
    listening, and returns them.  The fallback answers GET and HEAD
    requests with a redirect to ["https://" + host + ":" + secured port +
    url], path and query kept.  A request with any other method is not
    redirected: the fallback registers its handler with [get] only. *)
Theorem C3_fallback_redirects_get_only net https http s w m :
  ssl (_options s) = SslManual m ->
  _server s = [] ->
  Forall (fun c => cbOk (net c) = true) (listenCalls https (Some http) s) ->
  let run := listen net https (Some http) s w in
  let fb := handleOf net (FallbackListen http) in
  let main := handleOf net (SpdyListen (spdyOptions s) (Some https)) in
  _server run.1.2 = [fb; main] /\
  (exists t, run.1.1 = Fulfilled t [fb; main]) /\
  portsOf (origin fb) = [http] /\ portsOf (origin main) = [https] /\
  listening fb = true /\ listening main = true /\
  (forall req, method req = GET \/ method req = HEAD ->
     serveOn run.1.2 fb req
     = Some (Redirect ("https://" +:+ hostString (host req) +:+ ":"
                       +:+ pretty https +:+ url req))) /\
  (forall req, method req <> GET -> method req <> HEAD ->
     forall loc, serveOn run.1.2 fb req <> Some (Redirect loc)).
Proof.
  intros Hssl Hnil Hok run fb main.
  assert (listenCalls https (Some http) s
          = [FallbackListen http; SpdyListen (spdyOptions s) (Some https)]) as Hcalls.
  { unfold listenCalls, bindCalls, fallbackCall, mainCall. simpl. by rewrite Hssl. }
  destruct (listen_state net https (Some http) s w) as (_ & _ & _ & Hport & Hsrv).
  fold run in Hport, Hsrv. rewrite Hcalls, Hnil in Hsrv. simpl in Hsrv.
  rewrite Hcalls in Hok. apply Forall_cons in Hok as [Hfb Hok].
  apply Forall_cons in Hok as [Hmain _].
  assert (listening fb = true) as Hlfb by done.
  split; [done|]. split; [|split; [done|split; [done|split; [done|split; [done|split]]]]].
  - assert (isFulfilled run.1.1 = true) as Hful.
    { apply listen_fulfilled_iff. split.
      - unfold mainCall. simpl. by rewrite Hssl.
      - rewrite Hcalls. by repeat constructor. }
    destruct run.1.1 as [t v| |] eqn:E; try done. exists t. f_equal.
    subst run. unfold listen in E.
    apply startListening_fulfilled in E as (-> & _). exact Hsrv.
  - intros req Hm. unfold serveOn. simpl origin. rewrite Hlfb.
    unfold fallbackServer, fallbackHandler. rewrite Hport.
    by destruct Hm as [-> | ->].
  - intros req Hget Hhead loc. unfold serveOn. simpl origin. rewrite Hlfb.
    unfold fallbackServer. destruct (method req); done.
Qed.

Lemma C3_fallback_redirects_get_only_witness :
  let run := listen allBind 8443 (Some 8080%Z) manualServer world0 in
  let fb := handleOf allBind (FallbackListen 8080) in
  serveOn run.1.2 fb getFoo = Some (Redirect "https://example.org:8443/foo?x=1") /\
  forall loc, serveOn run.1.2 fb postFoo <> Some (Redirect loc).
Proof.
  assert (Forall (fun c => cbOk (allBind c) = true)
                 (listenCalls 8443 (Some 8080%Z) manualServer)) as Hok
    by (vm_compute; repeat constructor).
  destruct (C3_fallback_redirects_get_only allBind 8443 8080 manualServer world0
              {| key := "KEY"; cert := "CERT"; allowUnsigned := false |}
              eq_refl eq_refl Hok) as (_ & _ & _ & _ & _ & _ & Hget & Hother).
  split.
  - apply (Hget getFoo). by left.
  - apply (Hother postFoo); discriminate.
Defined.

(** The POST request to the plaintext port, evaluated: no route matches. *)
Example post_to_fallback_not_found :
  let run := listen allBind 8443 (Some 8080%Z) manualServer world0 in
  (fun srv => serveOn run.1.2 srv postFoo) <$> _server run.1.2
  = [Some NotFound; None].
Proof. by vm_compute. Qed.

(** The redirect target is built from the [Host] header as it is: a
    header naming the plaintext port keeps that port in front of the
    secured one. *)
Example redirect_keeps_host_header :
  fallbackServer listeningServer
    {| method := GET; host := Some "example.org:8080"; url := "/foo?x=1" |}
  = Redirect "https://example.org:8080:8443/foo?x=1".
Proof. by vm_compute. Qed.

(** ** Claims about construction *)

Lemma createDefaultOptions_throws_iff o :
  (exists e, createDefaultOptions o = inl e) <-> requiredAbsent o.
Proof.
  unfold createDefaultOptions, requiredAbsent.
  destruct (Partial.name o), (Partial.domains o), (Partial.cookieSecret o),
    (Partial.webmasterMail o); split;
    try (intros [e He]; discriminate He);
    try (intros [H|[H|[H|H]]]; discriminate H);
    try (intros _; by eexists); intros _; tauto.
Qed.

Lemma newServer_result o w :
  (newServer o w).1 = match createDefaultOptions o with
                      | inl e => inl e
                      | inr opts => inr (freshServer opts)
                      end.
Proof. unfold newServer. by destruct (createDefaultOptions o). Qed.

(** C4.  Constructing the server throws exactly when one of [name],
    [domains], [cookieSecret], [webmasterMail] is absent; what it throws
    is then one of the program's configuration errors, thrown before
    anything else happens.  In particular construction returns a server
    for every valid configuration. *)
Theorem C4_construction_throws_iff_required_absent o w :
  ((exists e, (newServer o w).1 = inl e) <-> requiredAbsent o) /\
  (forall e, (newServer o w).1 = inl e ->
     isConfigurationError e = true /\ (newServer o w).2 = w) /\
  (validConfiguration o -> exists s, (newServer o w).1 = inr s).
Proof.
  assert ((exists e, (newServer o w).1 = inl e) <-> requiredAbsent o) as Hiff.
  { rewrite <- createDefaultOptions_throws_iff, newServer_result.
    destruct (createDefaultOptions o); split; intros [e He]; try done; by eexists. }
  split; [exact Hiff|]. split.
  - intros e. unfold newServer, createDefaultOptions.
    destruct (Partial.name o), (Partial.domains o), (Partial.cookieSecret o),
      (Partial.webmasterMail o); simpl; intros [= <-]; done.
  - intros (Hn & (ds & Hd & _) & Hc & Hm & _).
    destruct (newServer o w).1 as [e|s] eqn:E; [|by exists s].
    exfalso. assert (requiredAbsent o) as [H|[H|[H|H]]] by (apply Hiff; by exists e).
    + rewrite H in Hn. by destruct Hn.
    + congruence.
    + rewrite H in Hc. by destruct Hc.
    + rewrite H in Hm. by destruct Hm.
Qed.

Lemma C4_construction_throws_iff_required_absent_witness :
  validConfiguration requiredOnly /\
  (exists s, (newServer requiredOnly world0).1 = inr s) /\
  (exists e, (newServer noOptions world0).1 = inl e).
Proof.
  assert (validConfiguration requiredOnly) as Hvalid.
  { split; [by eexists|]. split; [by eexists; split|].
    split; [by eexists|]. split; [by eexists|]. intros n Hn. discriminate Hn. }
  destruct (C4_construction_throws_iff_required_absent requiredOnly world0)
    as (_ & _ & Hok).
  destruct (C4_construction_throws_iff_required_absent noOptions world0)
    as (Hiff & _ & _).
  split; [exact Hvalid|]. split; [exact (Hok Hvalid)|].
  apply Hiff. by left.
Defined.

(** ** Claims about the SSL mode and the debug sink *)

(** C8 (as amended).  The dispatch on the SSL mode in [startListening] is
    deterministic: the promise it makes and the bind it asks for depend
    only on the options, the stored ports and the runtime's answer, not on
    the world or on the handle list, and [spdyOptions] depends only on the
    options.  It is not free of effects on the process: it sets
    [NODE_TLS_REJECT_UNAUTHORIZED] to ["0"] in managed-certificate mode
    with the development flag, and in manual-certificate mode with
    [allowUnsigned] or the development flag; otherwise, and for every
    other variable always, the environment is left as it was.  Doing it
    again changes the environment no further. *)
Theorem C8_ssl_dispatch_sets_tls_flag net s w :
  env (startMain net s w).2
    = (if relaxesTls (_options s) then <[TLS_FLAG := "0"]> (env w) else env w) /\
  (forall k, k <> TLS_FLAG -> env (startMain net s w).2 !! k = env w !! k) /\
  (forall s2 w2,
     _options s2 = _options s -> _portHttp s2 = _portHttp s ->
     _portHttps s2 = _portHttps s ->
     (startMain net s2 w2).1.1 = (startMain net s w).1.1 /\
     mainCall s2 = mainCall s /\ spdyOptions s2 = spdyOptions s) /\
  env (startMain net (startMain net s w).1.2 (startMain net s w).2).2
    = env (startMain net s w).2.
Proof.
  assert (env (startMain net s w).2
          = (if relaxesTls (_options s) then <[TLS_FLAG := "0"]> (env w) else env w))
    as Henv by (main_cases net s; done).
  assert (forall c, _options (startMain net s c).1.2 = _options s) as Hopt
    by (intros c; main_cases net s; done).
  split; [exact Henv|]. split; [|split].
  - intros k Hk. rewrite Henv. destruct (relaxesTls (_options s)); [|done].
    by rewrite lookup_insert_ne.
  - intros s2 w2 Ho Hh Hs.
    destruct s2 as [o2 app2 srv2 http2 https2]. simpl in Ho, Hh, Hs. subst.
    main_cases net s; done.
  - assert (forall s1 w1, env (startMain net s1 w1).2
              = (if relaxesTls (_options s1) then <[TLS_FLAG := "0"]> (env w1) else env w1))
      as Hgen by (intros s1 w1; main_cases net s1; done).
    rewrite (Hgen (startMain net s w).1.2), Hopt, Henv.
    destruct (relaxesTls (_options s)); [|done]. by rewrite insert_insert_eq.
Qed.

Lemma C8_ssl_dispatch_sets_tls_flag_witness :
  env (startMain allBind unsignedServer world0).2 !! "HOME" = None /\
  env (startMain allBind unsignedServer world0).2 = {[ TLS_FLAG := "0" ]}.
Proof.
  destruct (C8_ssl_dispatch_sets_tls_flag allBind unsignedServer world0)
    as (Henv & Hother & _).
  split.
  - rewrite Hother; [reflexivity | discriminate].
  - rewrite Henv. reflexivity.
Defined.

(** C8, as stated, fails: in manual-certificate mode with [allowUnsigned]
    the dispatch on the SSL mode changes the process environment. *)
Lemma C8_counterexample_env_changed :
  env world0 !! TLS_FLAG = None /\
  env (startMain allBind unsignedServer world0).2 !! TLS_FLAG = Some "0" /\
  env (startMain allBind unsignedServer world0).2 <> env world0.
Proof.
  split; [by vm_compute|]. split; [by vm_compute|].
  intros H. apply (f_equal (fun m => m !! TLS_FLAG)) in H.
  vm_compute in H. discriminate H.
Qed.

Lemma filter_none (f : Action -> bool) l :
  Forall (fun a => f a = false) l -> filter (fun a => f a = true) l = [].
Proof.
  induction 1 as [|a l Ha _ IH]; [done|].
  rewrite filter_cons_False; [done|]. by rewrite Ha.
Qed.

Lemma filter_debugActions o level args :
  filter (fun a => isDebug a = true) (debugActions o level args)
  = debugActions o level args.
Proof.
  unfold debugActions. destruct (debug o) as [[|id]|]; [| |done];
    by rewrite filter_cons_True by done.
Qed.

Lemma closeActions_not_debug now l :
  count isDebug (concat (closeActions now <$> l)) = 0%nat.
Proof.
  apply count_none, Forall_forall. intros a Ha.
  apply elem_of_concat in Ha as (acts & Hacts & Ha).
  apply list_elem_of_fmap in Hacts as (srv & -> & _).
  unfold closeActions in Ha. apply elem_of_cons in Ha as [-> | Ha]; [done|].
  destruct (now && destroy srv); [|by apply elem_of_nil in Ha].
  by apply list_elem_of_fmap in Ha as (kc & -> & _).
Qed.

(** C9 (as amended).  The debug sink of a server is the configured one,
    and [defaultDebug], which writes to the console, when the option is
    absent.  Whatever the sink, it is called with level ["debug"] and the
    resolved options once during construction, with level ["info"] before
    [listen] asks for its binds, and with level ["info"] again when the
    call is fulfilled; [close] never calls it.  Only an explicit [null]
    disables all these calls: an absent option produces console output at
    the same points. *)
Theorem C9_debug_sink_calls o opts w :
  createDefaultOptions o = inr opts ->
  debug opts = orDefault (Partial.debug o) (Some defaultDebug) /\
  newActions w (newServer o w).2
    = debugActions opts "debug" [VString "Options"; VOptions opts] /\
  (forall net https http s w1, _options s = opts ->
     let run := listen net https http s w1 in
     filter (fun a => isDebug a = true) (newActions w1 run.2)
     = debugActions opts "info"
         [VString "Going to listen"; VNumber https; portValue http]
       ++ (if isFulfilled run.1.1
           then debugActions opts "info"
                  [VString "Listening"; VNumber https; portValue http]
           else [])) /\
  (forall closeCb now s w1,
     count isDebug (newActions w1 (close closeCb now s w1).2) = 0%nat) /\
  (Partial.debug o = Some None ->
     forall level args, debugActions opts level args = []) /\
  (Partial.debug o = None ->
     forall level args,
       debugActions opts level args
       = [ConsoleLog (VString ("[" +:+ level +:+ "]") :: VString debugPrefix :: args)]) /\
  (forall id, Partial.debug o = Some (Some (customDebug id)) ->
     forall level args, debugActions opts level args = [CallDebug id level args]).
Proof.
  intros Hopts.
  assert (debug opts = orDefault (Partial.debug o) (Some defaultDebug)) as Hdebug.
  { unfold createDefaultOptions in Hopts.
    destruct (Partial.name o), (Partial.domains o), (Partial.cookieSecret o),
      (Partial.webmasterMail o); try discriminate Hopts.
    by injection Hopts as <-. }
  split; [exact Hdebug|]. split; [|split; [|split; [|split; [|split]]]].
  - apply newActions_app. unfold newServer. rewrite Hopts. simpl.
    apply debugLog_trace.
  - intros net https http s w1 <- run. subst run. rewrite listen_actions.
    rewrite !filter_app, filter_debugActions. f_equal.
    rewrite filter_cons_False by (simpl; done). rewrite filter_nil. simpl.
    rewrite filter_none by (by apply Forall_fmap, Forall_forall). simpl.
    destruct (isFulfilled _); [|done].
    rewrite filter_app, filter_debugActions.
    rewrite filter_cons_False by (simpl; done). by rewrite filter_nil, app_nil_r.
  - intros closeCb now s w1. rewrite close_run. simpl. rewrite newActions_run.
    apply closeActions_not_debug.
  - intros Hnull level args. unfold debugActions. rewrite Hdebug, Hnull. done.
  - intros Habsent level args. unfold debugActions. rewrite Hdebug, Habsent. done.
  - intros id Hid level args. unfold debugActions. rewrite Hdebug, Hid. done.
Qed.

Lemma C9_debug_sink_calls_witness :
  newActions world0 (newServer (withSsl SslNone (Some None) requiredOnly) world0).2 = [] /\
  newActions world0 (newServer requiredOnly world0).2
    = [ConsoleLog [VString "[debug]"; VString debugPrefix; VString "Options";
                   VOptions (sampleOptions SslLetsEncrypt (Some defaultDebug))]].
Proof.
  destruct (C9_debug_sink_calls (withSsl SslNone (Some None) requiredOnly)
              (sampleOptions SslNone None) world0 eq_refl)
    as (_ & Hnew & _ & _ & Hnull & _).
  destruct (C9_debug_sink_calls requiredOnly
              (sampleOptions SslLetsEncrypt (Some defaultDebug)) world0 eq_refl)
    as (_ & Hnew' & _ & _ & _ & Habsent & _).
  split.
  - rewrite Hnew. by apply Hnull.
  - rewrite Hnew'. by apply Habsent.
Defined.

(** C9, as stated, fails: with the debug option absent from the
    configuration, construction and [listen] write to the console. *)
Lemma C9_counterexample_absent_sink_logs :
  Partial.debug requiredOnly = None /\
  (newServer requiredOnly world0).1
    = inr (freshServer (sampleOptions SslLetsEncrypt (Some defaultDebug))) /\
  count isDebug (trace (newServer requiredOnly world0).2) = 1%nat /\
  count isDebug
    (newActions world0
       (listen allBind 443 (Some 80%Z)
          (freshServer (sampleOptions SslLetsEncrypt (Some defaultDebug))) world0).2)
  = 2%nat.
Proof.
  split; [reflexivity|]. split; [reflexivity|]. split; by vm_compute.
Qed.

(** * Further properties of the code *)

(** ** Options and construction *)

(** X1.  When several required options are absent, construction throws
    the error of the first one in the order [name], [domains],
    [cookieSecret], [webmasterMail]. *)
Theorem X1_first_missing_option_reported o w :
  (Partial.name o = None ->
   (newServer o w).1 = inl (Error "name is required.")) /\
  (is_Some (Partial.name o) -> Partial.domains o = None ->
   (newServer o w).1 = inl (Error "domains is required.")) /\
  (is_Some (Partial.name o) -> is_Some (Partial.domains o) ->
   Partial.cookieSecret o = None ->
   (newServer o w).1 = inl (Error "cookieSecret is required.")) /\
  (is_Some (Partial.name o) -> is_Some (Partial.domains o) ->
   is_Some (Partial.cookieSecret o) -> Partial.webmasterMail o = None ->
   (newServer o w).1 = inl (Error "webmasterMail is required.")).
Proof.
  rewrite newServer_result. unfold createDefaultOptions.
  repeat split.
  - by intros ->.
  - by intros [? ->] ->.
  - by intros [? ->] [? ->] ->.
  - by intros [? ->] [? ->] [? ->] ->.
Qed.

Lemma X1_first_missing_option_reported_witness :
  (newServer noOptions world0).1 = inl (Error "name is required.").
Proof.
  destruct (X1_first_missing_option_reported noOptions world0) as (H & _).
  apply H. reflexivity.
Defined.

(** X2.  Resolved options are a fixed point of [createDefaultOptions]:
    resolving them again returns them unchanged, with no default
    replacing a value, an explicit [null] sink or mapping included. *)
Theorem X2_resolved_options_fixed_point o opts :
  createDefaultOptions o = inr opts ->
  createDefaultOptions (toPartial opts) = inr opts /\
  (forall f, Partial.debug o = Some f -> debug opts = f) /\
  (forall v, Partial.ssl o = Some v -> ssl opts = v) /\
  (forall sf, Partial.staticFiles o = Some sf -> staticFiles opts = sf) /\
  (forall n, Partial.maxPayloadSize o = Some n -> maxPayloadSize opts = n).
Proof.
  intros H. split; [by destruct opts|].
  unfold createDefaultOptions in H.
  destruct (Partial.name o), (Partial.domains o), (Partial.cookieSecret o),
    (Partial.webmasterMail o); try discriminate H.
  injection H as <-. simpl. repeat split; by intros ? ->.
Qed.

Lemma X2_resolved_options_fixed_point_witness :
  createDefaultOptions (toPartial (sampleOptions SslLetsEncrypt (Some defaultDebug)))
  = inr (sampleOptions SslLetsEncrypt (Some defaultDebug)).
Proof.
  exact (proj1 (X2_resolved_options_fixed_point requiredOnly
                  (sampleOptions SslLetsEncrypt (Some defaultDebug)) eq_refl)).
Defined.

(** X3.  The application of a constructed server carries, in this order:
    compression (switched off in development mode), the JSON and the
    URL-encoded body parsers with one and the same limit (the given one,
    or 102400), the static files middleware if and only if a mapping was
    given, and last the session middleware, named after the server, keyed
    with the cookie secret, whose cookie is secure unless [ssl] is
    ["none"]. *)
Theorem X3_middleware_stack o w s :
  (newServer o w).1 = inr s ->
  exists nm secret secure,
    Partial.name o = Some nm /\ Partial.cookieSecret o = Some secret /\
    (secure = false <-> Partial.ssl o = Some SslNone) /\
    app s =
      [Compression (orDefault (Partial.isDevelopment o) false);
       Json (orDefault (Partial.maxPayloadSize o) 102400%Z);
       Urlencoded (orDefault (Partial.maxPayloadSize o) 102400%Z) true]
      ++ match Partial.staticFiles o with
         | Some (Some sf) => [Static (serve sf) (from sf)]
         | _ => []
         end
      ++ [Session nm true true secure false false "destroy" secret].
Proof.
  rewrite newServer_result. unfold createDefaultOptions.
  destruct (Partial.name o) as [nm|]; [|done].
  destruct (Partial.domains o); [|done].
  destruct (Partial.cookieSecret o) as [secret|]; [|done].
  destruct (Partial.webmasterMail o); [|done].
  intros [= <-]. unfold app, freshServer, basicSetup. simpl.
  exists nm, secret, (negb (isSslNone (orDefault (Partial.ssl o) SslLetsEncrypt))).
  split; [done|]. split; [done|]. split.
  - destruct (Partial.ssl o) as [[| |m]|]; simpl; split; try done; intros [=].
  - by destruct (Partial.staticFiles o) as [[sf|]|].
Qed.

Lemma X3_middleware_stack_witness :
  exists nm secret secure,
    Partial.name requiredOnly = Some nm /\
    Partial.cookieSecret requiredOnly = Some secret /\
    (secure = false <-> Partial.ssl requiredOnly = Some SslNone) /\
    app (freshServer (sampleOptions SslLetsEncrypt (Some defaultDebug))) =
      [Compression false; Json 102400; Urlencoded 102400 true]
      ++ [] ++ [Session nm true true secure false false "destroy" secret].
Proof.
  exact (X3_middleware_stack requiredOnly world0
           (freshServer (sampleOptions SslLetsEncrypt (Some defaultDebug))) eq_refl).
Defined.

(** ** Listening, mode by mode *)

(** X4.  In managed-certificate mode [listen] asks for exactly one bind,
    through greenlock, which is handed both ports; no fallback
    application is started even when a plaintext port is given, and
    exactly one handle is pushed.  The call is fulfilled exactly when that
    bind succeeds. *)
Theorem X4_managed_mode_single_bind net https http s w :
  ssl (_options s) = SslLetsEncrypt ->
  let run := listen net https http s w in
  let c := GreenlockListen (greenlockOptions s) http (Some https) in
  listenCalls https http s = [c] /\
  _server run.1.2 = _server s ++ [handleOf net c] /\
  count isListen (newActions w run.2) = 1%nat /\
  (isFulfilled run.1.1 = true <-> cbOk (net c) = true).
Proof.
  intros Hssl run c.
  assert (listenCalls https http s = [c]) as Hcalls.
  { unfold listenCalls, bindCalls, fallbackCall, mainCall. simpl. rewrite Hssl.
    simpl. by destruct http. }
  destruct (listen_state net https http s w) as (_ & _ & _ & _ & Hsrv).
  fold run in Hsrv. rewrite Hcalls in Hsrv.
  split; [done|]. split; [done|]. split.
  - subst run. rewrite listen_actions, Hcalls.
    rewrite !count_app, count_listens_fmap.
    rewrite count_debugActions by apply isDebug_not_listen.
    destruct (isFulfilled _); [|done].
    rewrite count_app, count_debugActions by apply isDebug_not_listen. done.
  - subst run. rewrite listen_fulfilled_iff, Hcalls. split.
    + intros [_ H]. by apply Forall_cons in H as [H _].
    + intros H. split; [|by repeat constructor].
      unfold mainCall. simpl. by rewrite Hssl.
Qed.

Lemma X4_managed_mode_single_bind_witness :
  let s := freshServer (sampleOptions SslLetsEncrypt None) in
  listenCalls 443 (Some 80%Z) s
  = [GreenlockListen (greenlockOptions s) (Some 80%Z) (Some 443%Z)].
Proof.
  exact (proj1 (X4_managed_mode_single_bind allBind 443 (Some 80%Z)
                  (freshServer (sampleOptions SslLetsEncrypt None)) world0 eq_refl)).
Defined.

(** X5.  The options handed to greenlock by a constructed server never
    agree to the terms of service on the user's behalf: [agreeTos] is set
    exactly when the configuration set [agreeGreenlockTos] to [true].
    The staging directory is contacted exactly in development mode, the
    production directory otherwise; mail, domains and certificate
    directory are the configured ones; telemetry and community
    membership are always declined; greenlock's own debugging is on
    unless the debug sink is [null]. *)
Theorem X5_greenlock_options_of_configuration o w s :
  (newServer o w).1 = inr s ->
  let g := greenlockOptions s in
  (Greenlock.agreeTos g = true <-> Partial.agreeGreenlockTos o = Some true) /\
  (Greenlock.server g = "https://acme-staging-v02.api.letsencrypt.org/directory"
   <-> Partial.isDevelopment o = Some true) /\
  (Greenlock.server g = "https://acme-v02.api.letsencrypt.org/directory"
   <-> Partial.isDevelopment o <> Some true) /\
  Partial.webmasterMail o = Some (Greenlock.email g) /\
  Partial.domains o = Some (Greenlock.approveDomains g) /\
  Greenlock.configDir g = orDefault (Partial.letsEncryptCertDirectory o) "./.certs/" /\
  Greenlock.communityMember g = false /\ Greenlock.telemetry g = false /\
  (Greenlock.debug g = false <-> Partial.debug o = Some None).
Proof.
  rewrite newServer_result. unfold createDefaultOptions.
  destruct (Partial.name o); [|done].
  destruct (Partial.domains o); [|done].
  destruct (Partial.cookieSecret o); [|done].
  destruct (Partial.webmasterMail o); [|done].
  intros [= <-]. unfold greenlockOptions, freshServer. simpl.
  split; [|split; [|split; [|split; [done|split; [done|split; [done|split; [done|split; [done|]]]]]]]].
  - destruct (Partial.agreeGreenlockTos o) as [[|]|]; simpl; split; try done; intros [=].
  - destruct (Partial.isDevelopment o) as [[|]|]; simpl; split; try done; intros [=].
  - destruct (Partial.isDevelopment o) as [[|]|]; simpl; split; done.
  - destruct (Partial.debug o) as [[f|]|]; simpl; split; try done; intros [=].
Qed.

Lemma X5_greenlock_options_of_configuration_witness :
  Greenlock.agreeTos
    (greenlockOptions (freshServer (sampleOptions SslLetsEncrypt (Some defaultDebug))))
  = false.
Proof.
  destruct (X5_greenlock_options_of_configuration requiredOnly world0
              (freshServer (sampleOptions SslLetsEncrypt (Some defaultDebug))) eq_refl)
    as ([H _] & _).
  destruct (Greenlock.agreeTos _); [|reflexivity].
  discriminate (H eq_refl).
Defined.

(** X6.  In manual-certificate mode without a plaintext port [listen]
    starts no fallback: it asks for the one bind of the secured port, with
    exactly the configured key and certificate, and pushes one handle. *)
Theorem X6_manual_mode_without_plaintext_port net https s w m :
  ssl (_options s) = SslManual m ->
  let run := listen net https None s w in
  let c := SpdyListen {| Spdy.key := key m; Spdy.cert := cert m |} (Some https) in
  listenCalls https None s = [c] /\
  _server run.1.2 = _server s ++ [handleOf net c] /\
  portsOf (origin (handleOf net c)) = [https] /\
  (isFulfilled run.1.1 = true <-> cbOk (net c) = true).
Proof.
  intros Hssl run c.
  assert (listenCalls https None s = [c]) as Hcalls.
  { unfold listenCalls, bindCalls, fallbackCall, mainCall, spdyOptions. simpl.
    by rewrite Hssl. }
  destruct (listen_state net https None s w) as (_ & _ & _ & _ & Hsrv).
  fold run in Hsrv. rewrite Hcalls in Hsrv.
  split; [done|]. split; [done|]. split; [done|].
  subst run. rewrite listen_fulfilled_iff, Hcalls. split.
  - intros [_ H]. by apply Forall_cons in H as [H _].
  - intros H. split; [|by repeat constructor].
    unfold mainCall. simpl. by rewrite Hssl.
Qed.

Lemma X6_manual_mode_without_plaintext_port_witness :
  listenCalls 8443 None manualServer
  = [SpdyListen {| Spdy.key := "KEY"; Spdy.cert := "CERT" |} (Some 8443%Z)].
Proof.
  exact (proj1 (X6_manual_mode_without_plaintext_port allBind 8443 manualServer world0
                  {| key := "KEY"; cert := "CERT"; allowUnsigned := false |} eq_refl)).
Defined.

(** X7.  The fallback reads the secured port when it answers, not when it
    was started: after a later [listen] every fallback, whenever it was
    started, redirects GET requests to the secured port of that last
    call, and after [close] a fallback still serving a connection
    redirects to port ["null"].  A request without [Host] header is
    redirected to the host ["undefined"]. *)
Theorem X7_redirect_reads_current_port net closeCb now https http s w req :
  method req = GET ->
  fallbackServer (listen net https http s w).1.2 req
    = Redirect ("https://" +:+ hostString (host req) +:+ ":" +:+ pretty https +:+ url req) /\
  fallbackServer (close closeCb now s w).1.2 req
    = Redirect ("https://" +:+ hostString (host req) +:+ ":null" +:+ url req) /\
  (host req = None ->
   fallbackServer (listen net https http s w).1.2 req
     = Redirect ("https://undefined:" +:+ pretty https +:+ url req)).
Proof.
  intros Hm. unfold fallbackServer, fallbackHandler. rewrite Hm.
  destruct (listen_state net https http s w) as (_ & _ & _ & -> & _).
  rewrite close_run. simpl. split; [done|]. split; [done|]. by intros ->.
Qed.

Lemma X7_redirect_reads_current_port_witness :
  fallbackServer (listen allBind 9443 (Some 9080%Z) listeningServer world0).1.2 getFoo
    = Redirect "https://example.org:9443/foo?x=1" /\
  fallbackServer (close nodeClose false listeningServer world0).1.2 getFoo
    = Redirect "https://example.org:null/foo?x=1".
Proof.
  destruct (X7_redirect_reads_current_port allBind nodeClose false 9443 (Some 9080%Z)
              listeningServer world0 getFoo eq_refl) as (H1 & H2 & _).
  split; [exact H1 | exact H2].
Defined.

(** ** The registry of [enableDestroy] *)

(** X8.  Accepting a connection and then seeing it close leaves the
    server object exactly as it was, provided no connection was tracked
    under the same key; and in any case neither event touches the entry
    of another key. *)
Theorem X8_accept_then_close_restores_registry conn srv :
  (connections srv !! connKey conn = None ->
   onSocketClose (connKey conn) (onConnection conn srv) = srv) /\
  (forall k, k <> connKey conn ->
     connections (onConnection conn srv) !! k = connections srv !! k /\
     connections (onSocketClose (connKey conn) srv) !! k = connections srv !! k).
Proof.
  split.
  - intros Hfresh. destruct srv as [o l d m]. unfold onSocketClose, onConnection,
      setConnections. simpl in *. f_equal. by apply delete_insert_id.
  - intros k Hk. simpl. by rewrite lookup_insert_ne, lookup_delete_ne.
Qed.

Lemma X8_accept_then_close_restores_registry_witness :
  let srv := handleOf allBind (FallbackListen 8080) in
  let conn := peer "10.0.0.1" 50001 None in
  onSocketClose (connKey conn) (onConnection conn srv) = srv.
Proof.
  apply (X8_accept_then_close_restores_registry
           (peer "10.0.0.1" 50001 None) (handleOf allBind (FallbackListen 8080))).
  reflexivity.
Defined.

(** X9.  The registry is keyed by remote address and port, and the close
    handler deletes by key.  So when a connection [b] arrives with the
    address and port of a connection [a] that is still registered, [b]
    takes the entry of [a]; and when [a] then closes, the entry, now
    holding [b], is removed: [b] is no longer tracked, and a forced
    shutdown destroys no socket under that key. *)
Theorem X9_key_collision_loses_connection a b srv w :
  remoteAddress a = remoteAddress b -> remotePort a = remotePort b ->
  let both := onConnection b (onConnection a srv) in
  let after := onSocketClose (connKey a) both in
  connections both !! connKey a = Some b /\
  connections after !! connKey b = None /\
  count (isDestroyOf (connKey b)) (newActions w (destroyLoop after w).2) = 0%nat.
Proof.
  intros Haddr Hport both after.
  assert (connKey a = connKey b) as Hkey by (unfold connKey; by rewrite Haddr, Hport).
  assert (connections after !! connKey b = None) as Hgone.
  { subst after both. simpl. rewrite Hkey. apply lookup_delete_eq. }
  split; [|split; [exact Hgone|]].
  - subst both. simpl. rewrite Hkey. apply lookup_insert_eq.
  - unfold destroyLoop. simpl.
    rewrite (foldl_log (fun kc => SocketDestroy kc.1 kc.2)), newActions_run.
    apply count_none, Forall_fmap, Forall_forall. intros [k c] Hin. simpl.
    apply elem_of_map_to_list in Hin. apply bool_decide_eq_false.
    intros Hk. subst k. subst after both. simpl in Hin, Hgone.
    rewrite Hgone in Hin. discriminate Hin.
Qed.

Lemma X9_key_collision_loses_connection_witness :
  let a := peer "10.0.0.1" 50001 None in
  let b := peer "10.0.0.1" 50001 (Some 3%nat) in
  let srv := handleOf allBind (FallbackListen 8080) in
  connections (onSocketClose (connKey a) (onConnection b (onConnection a srv)))
    !! connKey b = None.
Proof.
  exact (proj1 (proj2 (X9_key_collision_loses_connection
                         (peer "10.0.0.1" 50001 None)
                         (peer "10.0.0.1" 50001 (Some 3%nat))
                         (handleOf allBind (FallbackListen 8080)) world0
                         eq_refl eq_refl))).
Defined.

Lemma occurs_app c s1 s2 : occurs c (s1 +:+ s2) = occurs c s1 || occurs c s2.
Proof.
  induction s1 as [|c1 s1 IH]; simpl; [done|]. by rewrite IH, orb_assoc.
Qed.

Lemma pretty_N_char_no_colon x : pretty_N_char x <> ":"%char.
Proof. unfold pretty_N_char. by repeat case_match. Qed.

Lemma pretty_N_go_no_colon x s :
  occurs ":" s = false -> occurs ":" (pretty_N_go x s) = false.
Proof.
  revert s. induction (N.lt_wf_0 x) as [x _ IH]; intros s Hs.
  assert (x = 0 \/ 0 < x)%N as [->|Hpos] by lia.
  - by rewrite pretty_N_go_0.
  - rewrite pretty_N_go_step by done. apply IH; [by apply N.div_lt|].
    simpl. rewrite Hs, orb_false_r. apply bool_decide_eq_false.
    apply pretty_N_char_no_colon.
Qed.

Lemma pretty_Z_no_colon (z : Z) : occurs ":" (pretty z) = false.
Proof.
  assert (forall p : positive, occurs ":" (pretty p) = false) as Hpos.
  { intros p. unfold pretty, pretty_positive, pretty, pretty_N.
    case_decide; [done|]. by apply pretty_N_go_no_colon. }
  destruct z as [|p|p]; [done | apply Hpos |].
  unfold pretty, pretty_Z. rewrite occurs_app, Hpos. done.
Qed.

Lemma append_nil s : "" +:+ s = s.
Proof. reflexivity. Qed.

Lemma append_cons c s t : String c s +:+ t = String c (s +:+ t).
Proof. reflexivity. Qed.

(** A string is cut in one way only at its last colon. *)
Lemma cut_at_last_colon s1 t1 s2 t2 :
  occurs ":" t1 = false -> occurs ":" t2 = false ->
  s1 +:+ ":" +:+ t1 = s2 +:+ ":" +:+ t2 -> s1 = s2 /\ t1 = t2.
Proof.
  intros H1 H2. revert s2.
  induction s1 as [|c1 s1 IH]; intros [|c2 s2];
    rewrite ?append_nil, ?append_cons, ?append_nil.
  - by intros [= ->].
  - intros [= <- ->]. rewrite occurs_app, ?append_cons in H1. simpl in H1.
    by rewrite orb_true_r in H1.
  - intros [= -> <-]. rewrite occurs_app, ?append_cons in H2. simpl in H2.
    by rewrite orb_true_r in H2.
  - intros [= -> H]. destruct (IH _ H) as [-> ->]. done.
Qed.

(** X10.  Two connections have the same registry key exactly when they
    have the same remote address and the same remote port, also for
    addresses that contain colons themselves. *)
Theorem X10_registry_key_identifies_peer a b :
  connKey a = connKey b <->
  remoteAddress a = remoteAddress b /\ remotePort a = remotePort b.
Proof.
  unfold connKey. split.
  - intros H. apply cut_at_last_colon in H as [Ha Hp];
      try apply pretty_Z_no_colon.
    split; [done|]. by apply (inj pretty).
  - by intros [-> ->].
Qed.

Lemma X10_registry_key_identifies_peer_witness :
  connKey (peer "::1" 50001 None) <> connKey (peer "::1:5000" 1 None).
Proof.
  intros H. apply X10_registry_key_identifies_peer in H as [H _].
  discriminate H.
Defined.

(** ** Closing *)

Lemma count_destroys_of_registry (m : gmap string Socket) :
  count isSocketDestroy ((fun kc => SocketDestroy kc.1 kc.2) <$> map_to_list m)
  = size m.
Proof.
  rewrite count_all; [by rewrite length_fmap, length_map_to_list|].
  by apply Forall_fmap, Forall_forall.
Qed.

Lemma destroy_count closeCb srv w :
  destroy srv = true ->
  count isServerClose (newActions w (closeOne closeCb true srv w).2) = 1%nat /\
  count isSocketDestroy (newActions w (closeOne closeCb true srv w).2)
  = size (connections srv).
Proof.
  intros Hd. rewrite closeOne_run. simpl.
  rewrite newActions_run. unfold closeActions. rewrite Hd. simpl.
  change (ServerClose srv :: ?l) with ([ServerClose srv] ++ l).
  rewrite !count_app, count_destroys_of_registry. split; [|done].
  rewrite (count_none isServerClose (_ <$> _)); [done|].
  by apply Forall_fmap, Forall_forall.
Qed.

(** X11.  The [destroy] method closes the server once and calls
    [destroy()] exactly once on every tracked connection, and it removes
    no entry itself: the registry keeps its keys until the sockets' close
    events arrive.  A forced [close] of a server object without a
    [destroy] method is the plain [close] of that server. *)
Theorem X11_destroy_once_per_connection closeCb srv w :
  (destroy srv = true ->
   let run := closeOne closeCb true srv w in
   count isServerClose (newActions w run.2) = 1%nat /\
   count isSocketDestroy (newActions w run.2) = size (connections srv) /\
   dom (connections (afterCloseCall true srv)) = dom (connections srv) /\
   (forall k c, connections (afterCloseCall true srv) !! k = Some c ->
      destroyed c = true)) /\
  (destroy srv = false ->
   closeOne closeCb true srv w = closeOne closeCb false srv w).
Proof.
  split.
  - intros Hd run. subst run. rewrite closeOne_run. simpl.
    rewrite newActions_run. unfold closeActions, afterCloseCall. rewrite Hd. simpl.
    split; [|split; [|split]].
    + change (ServerClose srv :: ?l) with ([ServerClose srv] ++ l).
      rewrite count_app. rewrite (count_none isServerClose (_ <$> _)); [done|].
      by apply Forall_fmap, Forall_forall.
    + change (ServerClose srv :: ?l) with ([ServerClose srv] ++ l).
      rewrite count_app, count_destroys_of_registry. done.
    + apply dom_fmap_L.
    + intros k c. rewrite lookup_fmap.
      destruct (connections srv !! k); simpl; [|done]. by intros [= <-].
  - intros Hd. rewrite !closeOne_run.
    unfold closePromise, afterCloseCall, closeActions. by rewrite Hd.
Qed.

Lemma X11_destroy_once_per_connection_witness :
  let srv := onConnection (peer "10.0.0.1" 50001 None)
               (onConnection (peer "10.0.0.2" 50002 None)
                  (handleOf allBind (FallbackListen 8080))) in
  count isSocketDestroy (newActions world0 (closeOne nodeClose true srv world0).2)
  = size (connections srv).
Proof.
  intros srv.
  destruct (X11_destroy_once_per_connection nodeClose srv world0) as [H _].
  destruct (H eq_refl) as (_ & Hn & _). exact Hn.
Defined.

(** X12.  [close] after [close] does nothing, whatever became of the
    first call (fulfilled, rejected or still pending): the second call is
    fulfilled at once with the empty list and leaves the server and the
    world as they were. *)
Theorem X12_close_twice closeCb1 closeCb2 now1 now2 s w :
  let run1 := close closeCb1 now1 s w in
  let run2 := close closeCb2 now2 run1.1.2 run1.2 in
  run2.1.1 = Fulfilled 0 [] /\ run2.1.2 = run1.1.2 /\ run2.2 = run1.2.
Proof.
  intros run1 run2. subst run2 run1. rewrite !close_run. simpl.
  by rewrite app_nil_r.
Qed.

(** X13.  If the close of one server is never acknowledged and no close
    fails, [close] never settles, although the handle list is already
    empty and the ports are cleared. *)
Theorem X13_close_hangs_on_unacknowledged_close closeCb now s w :
  (forall srv t e, srv ∈ _server s -> closeCb (afterCloseCall now srv) <> CbErr t e) ->
  (exists srv, srv ∈ _server s /\ closeCb (afterCloseCall now srv) = CbNever) ->
  let run := close closeCb now s w in
  run.1.1 = Pending /\ _server run.1.2 = [] /\
  _portHttp run.1.2 = None /\ _portHttps run.1.2 = None.
Proof.
  intros Hnofail (srv & Hin & Hnever) run. subst run. rewrite close_run. simpl.
  split; [|done].
  destruct (Promise_all _) as [t vs|t e|] eqn:E; [| |done].
  - exfalso. apply Promise_all_fulfilled in E as (_ & _ & HF).
    destruct (fulfilled_fmap_each _ _ _ _ srv HF Hin) as (t0 & v & Hp & _).
    unfold closePromise in Hp. by rewrite Hnever in Hp.
  - exfalso. apply Promise_all_rejected, firstRejection_member in E.
    apply list_elem_of_fmap in E as (srv' & Hp & Hin').
    unfold closePromise in Hp.
    destruct (closeCb (afterCloseCall now srv')) as [t0|t0 e0|] eqn:Ecb;
      simpl in Hp; try discriminate Hp.
    by apply (Hnofail srv' t0 e0).
Qed.

Lemma X13_close_hangs_on_unacknowledged_close_witness :
  (close nodeClose false busyServer world0).1.1 = Pending.
Proof.
  assert (forall srv t e, srv ∈ _server busyServer ->
            nodeClose (afterCloseCall false srv) <> CbErr t e) as Hnofail.
  { intros srv t e Hin. vm_compute in Hin.
    repeat (apply elem_of_cons in Hin as [-> | Hin]); [| |by apply elem_of_nil in Hin];
      by vm_compute. }
  assert (exists srv, srv ∈ _server busyServer
                      /\ nodeClose (afterCloseCall false srv) = CbNever) as Hnever.
  { eexists. split; [vm_compute; left|]. by vm_compute. }
  exact (proj1 (X13_close_hangs_on_unacknowledged_close nodeClose false busyServer
                  world0 Hnofail Hnever)).
Defined.

(** ** What no sequence of operations changes *)

Lemma step_facts op s w :
  let sw' := step op (s, w) in
  _options sw'.1 = _options s /\ _app sw'.1 = _app s /\
  (Forall (fun srv => destroy srv = true) (_server s) ->
   Forall (fun srv => destroy srv = true) (_server sw'.1)) /\
  env sw'.2 = (if isOpListen op && relaxesTls (_options s)
               then <[TLS_FLAG := "0"]> (env w) else env w).
Proof.
  destruct op as [net https http|closeCb now|i conn|i k]; simpl.
  - destruct (listen_state net https http s w) as (Ho & Ha & _ & _ & _).
    split; [done|]. split; [done|]. split.
    + apply listen_handles_have_destroy.
    + unfold listen. by rewrite startListening_env.
  - rewrite close_run. simpl. by repeat split.
  - split; [done|]. split; [done|]. split; [|done].
    intros H. by apply Forall_alter.
  - split; [done|]. split; [done|]. split; [|done].
    intros H. by apply Forall_alter.
Qed.

Lemma runOps_facts ops s w :
  let sw' := runOps ops (s, w) in
  _options sw'.1 = _options s /\ _app sw'.1 = _app s /\
  (Forall (fun srv => destroy srv = true) (_server s) ->
   Forall (fun srv => destroy srv = true) (_server sw'.1)) /\
  env sw'.2 = (if existsb isOpListen ops && relaxesTls (_options s)
               then <[TLS_FLAG := "0"]> (env w) else env w).
Proof.
  revert s w. induction ops as [|op ops IH]; intros s w; [done|].
  unfold runOps. simpl foldl. fold (runOps ops (step op (s, w))).
  destruct (step_facts op s w) as (Ho & Ha & Hd & He).
  destruct (step op (s, w)) as [s1 w1] eqn:E. simpl in Ho, Ha, Hd, He.
  destruct (IH s1 w1) as (Ho' & Ha' & Hd' & He').
  split; [congruence|]. split; [congruence|]. split; [by auto|].
  rewrite He', Ho, He. simpl existsb.
  destruct (isOpListen op), (existsb isOpListen ops), (relaxesTls (_options s));
    simpl; try done. by rewrite insert_insert_eq.
Qed.

(** X14.  Whatever is done with a server object (calls of [listen] and
    [close], connections arriving and closing), its options and its
    application stay those of construction, and every handle in its list
    has the [destroy] method, so that a forced [close] always goes
    through [destroy]. *)
Theorem X14_options_fixed_handles_destroyable ops o w :
  let sw' := runOps ops (freshServer o, w) in
  _options sw'.1 = o /\ app sw'.1 = basicSetup o /\
  Forall (fun srv => destroy srv = true) (server sw'.1) /\
  (forall closeCb srv w1, srv ∈ server sw'.1 ->
     count isSocketDestroy (newActions w1 (closeOne closeCb true srv w1).2)
     = size (connections srv)).
Proof.
  intros sw'. destruct (runOps_facts ops (freshServer o) w) as (Ho & Ha & Hd & _).
  fold sw' in Ho, Ha, Hd. specialize (Hd (Forall_nil_2 _)).
  split; [done|]. split; [done|]. split; [done|].
  intros closeCb srv w1 Hin. rewrite Forall_forall in Hd.
  destruct (destroy_count closeCb srv w1 (Hd srv Hin)) as [_ H]. exact H.
Qed.

(** X15.  The only thing any sequence of operations ever writes to the
    process environment is ["0"] to [NODE_TLS_REJECT_UNAUTHORIZED], and
    that only by a [listen] of a server whose configuration relaxes TLS
    verification.  Every other variable keeps its value; without such a
    [listen] the environment is untouched; and once written the value
    stays, [close] does not restore what was there. *)
Theorem X15_environment_frame ops s w :
  let sw' := runOps ops (s, w) in
  (forall k, k <> TLS_FLAG -> env sw'.2 !! k = env w !! k) /\
  (relaxesTls (_options s) = false -> env sw'.2 = env w) /\
  (existsb isOpListen ops = false -> env sw'.2 = env w) /\
  (relaxesTls (_options s) = true -> existsb isOpListen ops = true ->
   env sw'.2 !! TLS_FLAG = Some "0").
Proof.
  intros sw'. destruct (runOps_facts ops s w) as (_ & _ & _ & He).
  fold sw' in He. rewrite He. repeat split.
  - intros k Hk. destruct (_ && _); [|done]. by rewrite lookup_insert_ne.
  - intros ->. by rewrite andb_false_r.
  - by intros ->.
  - intros -> ->. apply lookup_insert_eq.
Qed.

Lemma X15_environment_frame_witness :
  env (runOps [OpListen allBind 8443 (Some 8080%Z); OpClose nodeClose true]
              (unsignedServer, world0)).2 !! TLS_FLAG = Some "0".
Proof.
  destruct (X15_environment_frame
              [OpListen allBind 8443 (Some 8080%Z); OpClose nodeClose true]
              unsignedServer world0) as (_ & _ & _ & H).
  apply H; reflexivity.
Defined.

Lemma X14_options_fixed_handles_destroyable_witness :
  let sw' := runOps [OpListen allBind 8443 (Some 8080%Z);
                     OpConnection 0 (peer "10.0.0.1" 50001 None)]
                    (manualServer, world0) in
  count isSocketDestroy
    (newActions world0
       (closeOne nodeClose true
          (onConnection (peer "10.0.0.1" 50001 None)
             (handleOf allBind (FallbackListen 8080))) world0).2)
  = 1%nat.
Proof.
  intros sw'.
  destruct (X14_options_fixed_handles_destroyable
              [OpListen allBind 8443 (Some 8080%Z);
               OpConnection 0 (peer "10.0.0.1" 50001 None)]
              (sampleOptions (manualCert false) None) world0) as (_ & _ & _ & H).
  rewrite (H nodeClose _ world0); [by vm_compute|]. vm_compute. left.
Defined.

(** ** The earlier version *)

Ltac v1_cases net s1 :=
  destruct s1 as [[? ? ? ? ? [|[? ? ?]] ? ? ? ? ?] ? ? ? ?];
  unfold listen, V1.listen, startListening, V1.startListening, startFallback,
    V1.startFallback, startMain, V1.startMain, bindAndPush, V1.bindAndKeep,
    emitEvent, spdyOptions, V1.spdyOptions, greenlockOptions, V1.greenlockOptions,
    pushServer, setServers, V1.setServer, setPorts, V1.setPorts, Promise_all,
    upgrade; simpl;
  repeat match goal with
         | |- context [net ?c] => let E := fresh "E" in destruct (net c) eqn:E; simpl
         end;
  repeat match goal with
         | |- context [(?a <=? ?b)%nat] =>
             let L := fresh "L" in destruct (a <=? b)%nat eqn:L; simpl
         end.

Lemma debugLogV1_env o level args w : env (V1.debugLog o level args w) = env w.
Proof. unfold V1.debugLog. by destruct (V1.debug o). Qed.

Lemma debugLogV1_trace o level args w :
  trace (V1.debugLog o level args w) = trace w ++ debugActionsV1 o level args.
Proof.
  unfold V1.debugLog, debugActionsV1. destruct (V1.debug o); simpl; [done|].
  by rewrite app_nil_r.
Qed.

(** What [listen] of the later version shares with [listen] of the
    earlier one outright: the environment, the settlement, the binds, and
    the main server. *)
Lemma v1_listen_agrees net https http s1 s2 w :
  _options s2 = upgrade (V1._options s1) ->
  let old := V1.listen net https http s1 w in
  let new := listen net https http s2 w in
  env new.2 = env old.2 /\
  settlement new.1.1 = old.1.1 /\
  listenCalls https http s2 = listenCallsV1 https http s1 /\
  exists raw,
    V1._server old.1.2 = Some raw /\
    last (_server new.1.2) = Some (enableDestroy raw) /\
    Some (origin raw) = last (listenCallsV1 https http s1) /\
    destroy raw = false.
Proof.
  destruct s2 as [o2 a2 l2 h2 hs2]. simpl. intros ->.
  unfold listenCalls, listenCallsV1, bindCalls, fallbackCall, mainCall.
  destruct http; v1_cases net s1;
    rewrite ?debugLog_env, ?debugLogV1_env; simpl;
    repeat match goal with
           | |- context [if ?b then _ else _] => destruct b; simpl
           end;
    rewrite ?debugLog_env, ?debugLogV1_env;
    (split; [done|]); (split; [done|]); (split; [done|]);
    eexists; (split; [reflexivity|]); (split; [|done]);
    rewrite ?app_assoc; by rewrite last_snoc.
Qed.

(** The actions of [listen] in the earlier version, in order. *)
Lemma v1_listen_actions net https http s w :
  let run := V1.listen net https http s w in
  newActions w run.2 =
  debugActionsV1 (V1._options s) "info"
    [VString "Going to listen"; VNumber https; portValue http]
  ++ [Emit "beforeListen"]
  ++ (Listen <$> listenCallsV1 https http s)
  ++ (if isFulfilled run.1.1
      then debugActionsV1 (V1._options s) "info"
             [VString "Listening"; VNumber https; portValue http]
           ++ [Emit "listen"]
      else []).
Proof.
  simpl. apply newActions_app. unfold listenCallsV1.
  destruct http; v1_cases net s;
    repeat match goal with
           | |- context [if ?b then _ else _] => destruct b; simpl
           end;
    rewrite ?debugLogV1_trace; simpl; rewrite ?debugLogV1_trace; simpl;
    rewrite <- ?app_assoc; simpl; rewrite ?app_nil_r; done.
Qed.

Lemma count_debugActionsV1 f o level args :
  (forall a, isDebug a = true -> f a = false) ->
  count f (debugActionsV1 o level args) = 0%nat.
Proof.
  intros Hf. apply count_none. unfold debugActionsV1.
  destruct (V1.debug o) as [[|id]|]; repeat constructor; by apply Hf.
Qed.

(** The later version's sink calls are the earlier version's, default
    console lines carrying the later prefix. *)
Lemma reprefix_debugActions o level args :
  reprefix <$> debugActionsV1 o level args = debugActions (upgrade o) level args.
Proof.
  unfold debugActionsV1, debugActions, upgrade. simpl.
  destruct (V1.debug o) as [[|id]|]; reflexivity.
Qed.

(** X16.  In the earlier version [listen] keeps one server only: the main
    one, as the library returned it (without [destroy]), in place of
    whatever was kept before, which is dropped without being closed.  The
    fallback it binds in manual-certificate mode is kept nowhere. *)
Theorem X16_earlier_version_keeps_main_server_only net https http s w :
  let run := V1.listen net https http s w in
  let cmain := match V1.certs (V1._options s) with
               | V1.CertsLetsEncrypt =>
                   GreenlockListen (V1.greenlockOptions s) http (Some https)
               | V1.CertsManual m =>
                   SpdyListen {| Spdy.key := key m; Spdy.cert := cert m |} (Some https)
               end in
  V1._server run.1.2 = Some (createListening (net cmain) cmain) /\
  count isServerClose (newActions w run.2) = 0%nat /\
  (forall m p, V1.certs (V1._options s) = V1.CertsManual m -> http = Some p ->
     Listen (FallbackListen p) ∈ newActions w run.2 /\
     origin <$> V1._server run.1.2 <> Some (FallbackListen p)).
Proof.
  intros run cmain.
  assert (V1._server run.1.2 = Some (createListening (net cmain) cmain)) as Hkept.
  { subst run cmain. destruct http; v1_cases net s; done. }
  split; [exact Hkept|]. split.
  - subst run. rewrite v1_listen_actions.
    rewrite !count_app, count_close_fmap.
    rewrite count_debugActionsV1 by apply isDebug_not_close.
    destruct (isFulfilled _); [|done].
    rewrite count_app, count_debugActionsV1 by apply isDebug_not_close. done.
  - intros m p Hm ->. split.
    + subst run. rewrite v1_listen_actions. unfold listenCallsV1. rewrite Hm.
      apply elem_of_app. right. apply elem_of_app. right.
      apply elem_of_app. left. left.
    + rewrite Hkept. subst cmain. rewrite Hm. simpl. by intros [=].
Qed.

Lemma X16_earlier_version_keeps_main_server_only_witness :
  let s := V1.freshServer (sampleOptionsV1 (V1.CertsManual
             {| key := "KEY"; cert := "CERT"; allowUnsigned := false |}) None) in
  let run := V1.listen allBind 8443 (Some 8080%Z) s world0 in
  Listen (FallbackListen 8080) ∈ newActions world0 run.2 /\
  origin <$> V1._server run.1.2 <> Some (FallbackListen 8080).
Proof.
  intros s run.
  destruct (X16_earlier_version_keeps_main_server_only allBind 8443 (Some 8080%Z)
              s world0) as (_ & _ & H).
  exact (H {| key := "KEY"; cert := "CERT"; allowUnsigned := false |} 8080%Z
           eq_refl eq_refl).
Defined.

(** X17.  Moving from the earlier version to the later one with [certs]
    renamed to [ssl] changes what [listen] does in one respect only: the
    lines the default sink writes to the console carry the later
    version's prefix in place of the earlier one's.  Apart from that the
    actions are the same, in the same order (the same calls of a caller's
    sink, events and binds); the writes to the process environment are
    the same; the settlement is the same, at the same tick with the same
    error; and the server the earlier version kept is, with [destroy]
    added, the last handle of the later version's list. *)
Theorem X17_upgrade_changes_console_prefix_only net https http s1 s2 w :
  _options s2 = upgrade (V1._options s1) ->
  let old := V1.listen net https http s1 w in
  let new := listen net https http s2 w in
  newActions w new.2 = reprefix <$> newActions w old.2 /\
  env new.2 = env old.2 /\
  settlement new.1.1 = old.1.1 /\
  exists raw,
    V1._server old.1.2 = Some raw /\
    last (_server new.1.2) = Some (enableDestroy raw).
Proof.
  intros H old new.
  destruct (v1_listen_agrees net https http s1 s2 w H)
    as (Henv & Hr & Hcalls & raw & Hkept & Hlast & _).
  fold old in Henv, Hr, Hkept. fold new in Henv, Hr, Hlast.
  split; [|split; [done|split; [done|by exists raw]]].
  assert (isFulfilled new.1.1 = isFulfilled old.1.1) as Hful.
  { rewrite <- Hr. by destruct new.1.1. }
  subst old new. rewrite listen_actions, v1_listen_actions, Hcalls, H, Hful.
  rewrite !fmap_app, !reprefix_debugActions. f_equal. f_equal.
  rewrite <- list_fmap_compose. f_equal. clear Hful.
  destruct (isFulfilled (V1.listen net https http s1 w).1.1); [|reflexivity].
  by rewrite fmap_app, reprefix_debugActions.
Qed.

Lemma X17_upgrade_changes_console_prefix_only_witness :
  let s1 := V1.freshServer (sampleOptionsV1 (V1.CertsManual
              {| key := "KEY"; cert := "CERT"; allowUnsigned := false |})
              (Some defaultDebug)) in
  let s2 := freshServer (sampleOptions (manualCert false) (Some defaultDebug)) in
  newActions world0 (listen allBind 8443 (Some 8080%Z) s2 world0).2
  = reprefix <$> newActions world0 (V1.listen allBind 8443 (Some 8080%Z) s1 world0).2.
Proof.
  intros s1 s2.
  exact (proj1 (X17_upgrade_changes_console_prefix_only allBind 8443 (Some 8080%Z)
                  s1 s2 world0 eq_refl)).
Defined.

(** The two versions' first console line of a [listen], side by side. *)
Example console_prefix_differs :
  let s1 := V1.freshServer (sampleOptionsV1 V1.CertsLetsEncrypt (Some defaultDebug)) in
  let s2 := freshServer (sampleOptions SslLetsEncrypt (Some defaultDebug)) in
  head (newActions world0 (V1.listen allBind 443 None s1 world0).2)
  = Some (ConsoleLog [VString "[info]"; VString V1.debugPrefix;
                      VString "Going to listen"; VNumber 443; VNull]) /\
  head (newActions world0 (listen allBind 443 None s2 world0).2)
  = Some (ConsoleLog [VString "[info]"; VString debugPrefix;
                      VString "Going to listen"; VNumber 443; VNull]) /\
  debugPrefix <> V1.debugPrefix.
Proof. split; [by vm_compute|]. split; [by vm_compute|]. by vm_compute. Qed.

(** X18.  A configuration of the earlier version, with [certs] renamed to
    [ssl], is resolved by the later version to the same options (or
    refused with the same error), and gives the same middleware, session
    cookie still secure, and the same options for greenlock. *)
Theorem X18_upgrade_preserves_construction o o1 :
  createDefaultOptions (upgradePartial o)
    = sum_map id upgrade (V1.createDefaultOptions o) /\
  basicSetup (upgrade o1) = V1.basicSetup o1 /\
  greenlockOptions (freshServer (upgrade o1))
    = V1.greenlockOptions (V1.freshServer o1).
Proof.
  split; [|split; [|done]].
  - unfold createDefaultOptions, V1.createDefaultOptions, upgradePartial. simpl.
    destruct (V1.Partial.name o), (V1.Partial.domains o),
      (V1.Partial.cookieSecret o), (V1.Partial.webmasterMail o); try done.
    simpl. unfold upgrade. simpl. do 2 f_equal.
    by destruct (V1.Partial.certs o).
  - unfold basicSetup, V1.basicSetup, upgrade. simpl.
    by destruct (V1.certs o1).
Qed.

(** ** The publishing script *)

Lemma objGet_objDelete k k' l :
  objGet k (objDelete k' l) = if decide (k = k') then None else objGet k l.
Proof.
  unfold objDelete. induction l as [|[k0 v0] l IH].
  - by case_decide.
  - destruct (decide (k0 = k')) as [->|Hne].
    + rewrite filter_cons_False by (simpl; tauto). rewrite IH. cbn [objGet].
      repeat case_decide; congruence.
    + rewrite filter_cons_True by done. cbn [objGet]. rewrite IH.
      repeat case_decide; congruence.
Qed.

Lemma objGet_objSet k k' v l :
  objGet k (objSet k' v l) = if decide (k = k') then Some v else objGet k l.
Proof.
  induction l as [|[k0 v0] l IH]; cbn [objGet objSet].
  - repeat case_decide; congruence.
  - destruct (decide (k0 = k')) as [->|Hne]; cbn [objGet].
    + repeat case_decide; congruence.
    + rewrite IH. repeat case_decide; congruence.
Qed.

Lemma objKeys_objDelete k l :
  objKeys (objDelete k l) = filter (fun k' => k' <> k) (objKeys l).
Proof.
  unfold objKeys, objDelete. induction l as [|[k0 v0] l IH]; [done|].
  rewrite fmap_cons. cbn [fst]. destruct (decide (k0 = k)) as [->|Hne].
  - rewrite !filter_cons_False by (simpl; tauto). exact IH.
  - rewrite !filter_cons_True by done. rewrite fmap_cons. cbn [fst]. by rewrite IH.
Qed.

Lemma objKeys_objSet k v l :
  objKeys (objSet k v l)
  = if decide (k ∈ objKeys l) then objKeys l else objKeys l ++ [k].
Proof.
  unfold objKeys. induction l as [|[k0 v0] l IH]; cbn [objSet].
  - case_decide as H; [inversion H | reflexivity].
  - rewrite (fmap_cons fst (k0, v0) l). cbn [fst].
    destruct (decide (k0 = k)) as [->|Hne].
    + rewrite fmap_cons. cbn [fst]. clear IH. case_decide as H; [done|].
      exfalso. apply H. left.
    + rewrite fmap_cons. cbn [fst]. rewrite IH. clear IH.
      destruct (decide (k ∈ l.*1)) as [Hin|Hnin]; case_decide as H; try done.
      * exfalso. apply H. by right.
      * exfalso. apply elem_of_cons in H as [?|?]; congruence.
Qed.

Lemma objDelete_absent k l : objGet k l = None -> objDelete k l = l.
Proof.
  unfold objDelete. induction l as [|[k0 v0] l IH]; cbn [objGet]; [done|].
  destruct (decide (k0 = k)) as [->|Hne]; [done|]. intros H.
  rewrite filter_cons_True by done. by rewrite IH.
Qed.

Lemma objSet_present k v l : objGet k l = Some v -> objSet k v l = l.
Proof.
  induction l as [|[k0 v0] l IH]; cbn [objGet objSet]; [done|].
  destruct (decide (k0 = k)) as [->|Hne]; [by intros [= ->]|].
  intros H. by rewrite IH.
Qed.

(** X19.  The manifest written to [dist] has no [scripts] and no
    [devDependencies] field and has [private] set to [false]; every other
    field has the value it has in [package.json]; the fields keep their
    order, [private] staying in place if it was there and coming last if
    not.  Trimming an already trimmed manifest changes nothing. *)
Theorem X19_trimmed_manifest fields :
  exists fields',
    trimManifest (JObject fields) = inr (JObject fields') /\
    objGet "scripts" fields' = None /\
    objGet "devDependencies" fields' = None /\
    objGet "private" fields' = Some (JBool false) /\
    (forall k, k <> "scripts" -> k <> "devDependencies" -> k <> "private" ->
       objGet k fields' = objGet k fields) /\
    objKeys fields'
      = (let kept := filter (fun k => k <> "devDependencies")
                       (filter (fun k => k <> "scripts") (objKeys fields)) in
         if decide ("private" ∈ kept) then kept else kept ++ ["private"]) /\
    trimManifest (JObject fields') = inr (JObject fields').
Proof.
  eexists. split; [reflexivity|].
  set (fields' := objSet "private" (JBool false)
                    (objDelete "devDependencies" (objDelete "scripts" fields))).
  assert (objGet "scripts" fields' = None) as Hs.
  { subst fields'. rewrite objGet_objSet, !objGet_objDelete.
    repeat case_decide; congruence. }
  assert (objGet "devDependencies" fields' = None) as Hd.
  { subst fields'. rewrite objGet_objSet, objGet_objDelete.
    repeat case_decide; congruence. }
  assert (objGet "private" fields' = Some (JBool false)) as Hp.
  { subst fields'. rewrite objGet_objSet. by case_decide. }
  split; [done|]. split; [done|]. split; [done|]. split; [|split].
  - intros k H1 H2 H3. subst fields'.
    rewrite objGet_objSet, !objGet_objDelete. repeat case_decide; congruence.
  - subst fields'. by rewrite objKeys_objSet, !objKeys_objDelete.
  - change (trimManifest (JObject fields'))
      with (@inr JsError _ (JObject (objSet "private" (JBool false)
              (objDelete "devDependencies" (objDelete "scripts" fields'))))).
    do 2 f_equal.
    rewrite (objDelete_absent "scripts") by done.
    rewrite (objDelete_absent "devDependencies") by done.
    by apply objSet_present.
Qed.

(** A manifest, trimmed. *)
Example trimmed_manifest_example :
  trimManifest
    (JObject [("name", JString "redoubt"); ("private", JBool true);
              ("scripts", JObject [("build", JString "tsc")]);
              ("main", JString "index.js"); ("devDependencies", JObject [])])
  = inr (JObject [("name", JString "redoubt"); ("private", JBool false);
                  ("main", JString "index.js")]).
Proof. reflexivity. Qed.

Section PublishFacts.

Variable JSON_parse : string -> option JsonValue.
Variable JSON_stringify : JsonValue -> string.

(** X20.  When [README.md], [LICENSE] and [package.json] exist and the
    manifest parses to something other than [null], the script ends
    without error and leaves in [dist] exactly three entries, whatever
    was there before: the two files as they are, and the trimmed
    manifest, serialized.  The files of the project are not touched. *)
Theorem X20_publish_fills_dist p readme license text packageJson trimmed :
  files p !! "README.md" = Some readme ->
  files p !! "LICENSE" = Some license ->
  files p !! "package.json" = Some text ->
  JSON_parse text = Some packageJson ->
  trimManifest packageJson = inr trimmed ->
  publishScript JSON_parse JSON_stringify p
  = ({| files := files p;
        dist := <["package.json" := JSON_stringify trimmed]>
                  (<["LICENSE" := license]> (<["README.md" := readme]> ∅)) |},
     None).
Proof.
  intros Hr Hl Hp Hparse Htrim. unfold publishScript. simpl.
  rewrite Hr. simpl. rewrite Hl. simpl. rewrite Hp, Hparse, Htrim. done.
Qed.

(** X21.  However the script ends, it never changes a file of the
    project and never leaves in [dist] anything that was there before:
    [dist] holds only what this run copied or wrote.  It ends without
    error exactly when the three inputs exist and the manifest parses to
    something other than [null]; when it ends with an error, [dist] has no
    [package.json], and without [README.md] it is left empty. *)
Theorem X21_publish_failure_and_frame p :
  let run := publishScript JSON_parse JSON_stringify p in
  files run.1 = files p /\
  (forall k v, dist run.1 !! k = Some v ->
     k ∈ ["README.md"; "LICENSE"; "package.json"] /\
     (k <> "package.json" -> files p !! k = Some v)) /\
  (run.2 = None <->
   is_Some (files p !! "README.md") /\ is_Some (files p !! "LICENSE") /\
   exists text packageJson,
     files p !! "package.json" = Some text /\
     JSON_parse text = Some packageJson /\ packageJson <> JNull) /\
  (run.2 <> None -> dist run.1 !! "package.json" = None) /\
  (files p !! "README.md" = None -> dist run.1 = ∅).
Proof.
  unfold publishScript. simpl.
  destruct (files p !! "README.md") as [readme|] eqn:Hr; simpl.
  2:{ split; [done|]. split; [by intros k v; rewrite lookup_empty|].
      split; [|done]. split; [done|]. by intros ([? ?] & _). }
  destruct (files p !! "LICENSE") as [license|] eqn:Hl; simpl.
  2:{ split; [done|]. split; [|split; [|done]].
      - intros k v [[<- <-]|[_ H]]%lookup_insert_Some; [|by rewrite lookup_empty in H].
        split; [set_solver | done].
      - split; [done|]. by intros (_ & [? ?] & _). }
  assert (forall k v,
            (<["LICENSE" := license]> (<["README.md" := readme]> ∅)
               : gmap string string) !! k = Some v ->
            k ∈ ["README.md"; "LICENSE"; "package.json"] /\
            (k <> "package.json" -> files p !! k = Some v)) as Htwo.
  { intros k v [[<- <-]|[_ H]]%lookup_insert_Some; [split; [set_solver | done]|].
    apply lookup_insert_Some in H as [[<- <-]|[_ H]]; [split; [set_solver | done]|].
    by rewrite lookup_empty in H. }
  destruct (files p !! "package.json") as [text|] eqn:Hp; simpl.
  2:{ split; [done|]. split; [exact Htwo|]. split; [|done].
      split; [done|]. by intros (_ & _ & t & j & [=] & _). }
  destruct (JSON_parse text) as [packageJson|] eqn:Hparse; simpl.
  2:{ split; [done|]. split; [exact Htwo|]. split; [|done].
      split; [done|]. intros (_ & _ & t & j & [= <-] & Hj & _). congruence. }
  destruct (trimManifest packageJson) as [e|trimmed] eqn:Htrim; simpl.
  - split; [done|]. split; [exact Htwo|]. split; [|done].
    split; [done|]. intros (_ & _ & t & j & [= <-] & Hj & Hnull).
    rewrite Hparse in Hj. injection Hj as <-. by destruct packageJson.
  - split; [done|]. split; [|split; [|split; [done|done]]].
    + intros k v Hk. apply lookup_insert_Some in Hk as [[<- <-]|[Hne H]].
      * split; [do 2 right; left | done].
      * by apply Htwo.
    + split; [|done]. intros _. split; [done|]. split; [done|].
      exists text, packageJson. split; [done|]. split; [done|].
      by destruct packageJson.
Qed.

End PublishFacts.

Lemma X20_publish_fills_dist_witness :
  let p := {| files := {[ "README.md" := "# redoubt"; "LICENSE" := "MIT";
                          "package.json" := "{}" ]};
              dist := {[ "old.js" := "stale" ]} |} in
  dist (publishScript (fun _ => Some (JObject [])) (fun _ => "{ private: false }") p).1
  = <["package.json" := "{ private: false }"]>
      (<["LICENSE" := "MIT"]> (<["README.md" := "# redoubt"]> ∅)).
Proof.
  intros p.
  assert (files p !! "README.md" = Some "# redoubt") as Hr by (by vm_compute).
  assert (files p !! "LICENSE" = Some "MIT") as Hl by (by vm_compute).
  assert (files p !! "package.json" = Some "{}") as Hp by (by vm_compute).
  exact (f_equal (fun r => dist r.1)
           (X20_publish_fills_dist (fun _ => Some (JObject []))
              (fun _ => "{ private: false }") p "# redoubt" "MIT" "{}" (JObject [])
              (JObject [("private", JBool false)]) Hr Hl Hp eq_refl eq_refl)).
Defined.

Lemma X21_publish_failure_and_frame_witness :
  let p := {| files := {[ "README.md" := "# redoubt" ]};
              dist := {[ "old.js" := "stale" ]} |} in
  dist (publishScript (fun _ => None) (fun _ => "") p).1 !! "package.json" = None.
Proof.
  intros p.
  destruct (X21_publish_failure_and_frame (fun _ => None) (fun _ => "") p)
    as (_ & _ & _ & H & _).
  apply H. by vm_compute.
Defined.
